(** * A structured-logging subsystem: shallow embedding and verified properties

    The development follows the Python sources of the logging pipeline:
    - [src/models/logger.py]                (module [Models]),
    - [src/services/logger_service.py]      (module [Service]),
    - [src/api/logger_router.py]            (module [Router]),
    - [src/repositories/logger_repository.py] (module [Repository]),
    - the [Logger] of [src/tests/test_logger.py] (module [Tests]).

    The modules of the standard library the sources call ([json], [logging],
    [datetime]) and the SQL session are modelled first, to the extent the
    sources use them; the definitions of each source follow, then the
    properties.

    Conventions of the embedding.
    - A Python [str] is a [string]; every character stands for the code point
      of the same number, so the strings covered are those whose code points
      are below 256.
    - A Python [int] is a [Z].  Floats are not part of the value universe.
    - A call that may raise returns a [result]: [Ok v] for a normal return,
      [Raise e] for an exception that leaves the function.
    - State that the Python code mutates (the table behind the SQL session,
      the logging module's loggers, the class-level registry) is passed in and
      returned explicitly; the state is returned on both outcomes because an
      exception does not undo the mutations made before it.
    - [datetime.utcnow()], the caller's stack frame and the health of the
      storage layer are inputs of the operation that consults them. *)

From Stdlib Require Import ZArith Ascii String List Bool Lia.
From Stdlib Require Import DecimalString DecimalFacts DecimalPos DecimalZ.
From stdpp Require Import gmap strings list sorting.
Import ListNotations.
Local Open Scope Z_scope.

(** ** Exceptions and results *)

Inductive exn : Type :=
  | ValueError (msg : string)
  | ValidationError (msg : string)
  | TypeError (msg : string)
  | KeyError (key : string)
  | OSError (path : string)
  | AttributeError (name : string)
  | RuntimeError (msg : string).

Inductive result (A : Type) : Type :=
  | Ok (a : A)
  | Raise (e : exn).
Arguments Ok {A} a.
Arguments Raise {A} e.

Definition bind {A B : Type} (r : result A) (k : A -> result B) : result B :=
  match r with
  | Ok a => k a
  | Raise e => Raise e
  end.

Notation "x <- r ;; k" := (bind r (fun x => k))
  (at level 100, r at next level, right associativity).

Definition is_ok {A : Type} (r : result A) : bool :=
  match r with Ok _ => true | Raise _ => false end.

(** [str(e)] *)
Definition str_exn (e : exn) : string :=
  match e with
  | ValueError m | ValidationError m | TypeError m | RuntimeError m => m
  | KeyError k => k
  | OSError p => p
  | AttributeError n => n
  end.

(** ** Python strings *)

(** [str.isspace] on one character, for the code points below 256. *)
Definition py_isspace (c : ascii) : bool :=
  let n := Z.of_N (N_of_ascii c) in
  ((9 <=? n) && (n <=? 13)) || ((28 <=? n) && (n <=? 32))
  || (n =? 133) || (n =? 160).

Fixpoint lstrip (s : string) : string :=
  match s with
  | EmptyString => EmptyString
  | String c s' => if py_isspace c then lstrip s' else s
  end.

Fixpoint rstrip (s : string) : string :=
  match s with
  | EmptyString => EmptyString
  | String c s' =>
      match rstrip s' with
      | EmptyString => if py_isspace c then EmptyString else String c EmptyString
      | r => String c r
      end
  end.

(** [v.strip()] *)
Definition strip (s : string) : string := rstrip (lstrip s).

(** Truth value of a [str]: the empty string is false. *)
Definition str_truthy (s : string) : bool :=
  match s with EmptyString => false | _ => true end.

(** [len(s)] *)
Definition len (s : string) : Z := Z.of_nat (String.length s).

(** ** The severity enumeration shared by the four sources *)

Inductive LogLevel : Type := DEBUG | INFO | WARNING | ERROR | CRITICAL.

Definition LogLevel_eqb (a b : LogLevel) : bool :=
  match a, b with
  | DEBUG, DEBUG | INFO, INFO | WARNING, WARNING
  | ERROR, ERROR | CRITICAL, CRITICAL => true
  | _, _ => false
  end.

(** [level.value] *)
Definition level_value (l : LogLevel) : string :=
  match l with
  | DEBUG => "DEBUG" | INFO => "INFO" | WARNING => "WARNING"
  | ERROR => "ERROR" | CRITICAL => "CRITICAL"
  end.

(** [getattr(logging, level.value)]: the numeric severity of the logging
    module. *)
Definition levelno (l : LogLevel) : Z :=
  match l with
  | DEBUG => 10 | INFO => 20 | WARNING => 30 | ERROR => 40 | CRITICAL => 50
  end.

(** ** Python values carried by [Dict[str, Any]] *)

(** [PObject] stands for any value the [json] module has no encoding for (a
    [datetime], a [set], an instance of a user class); it carries the text
    [str()] gives for it.  [PRefused] stands for a container the encoder
    refuses whatever [default] is: a dict one of whose keys is not a [str],
    [int], [float], [bool] or [None] (a [TypeError]), a list or dict that
    contains itself (a [ValueError]); it carries the exception. *)
#[local] Unset Elimination Schemes.
Inductive pyval : Type :=
  | PNone
  | PBool (b : bool)
  | PInt (z : Z)
  | PStr (s : string)
  | PList (l : list pyval)
  | PTuple (l : list pyval)
  | PDict (d : list (string * pyval))
  | PObject (repr : string)
  | PRefused (e : exn).
#[local] Set Elimination Schemes.

(** A [dict] with [str] keys, in insertion order. *)
Definition pydict : Type := list (string * pyval).

Fixpoint dict_get (k : string) (d : pydict) : option pyval :=
  match d with
  | [] => None
  | (k', v) :: d' => if String.eqb k k' then Some v else dict_get k d'
  end.

(** [d[k] = v]: an existing key keeps its position and takes the new value,
    a new key goes to the end. *)
Fixpoint dict_set (k : string) (v : pyval) (d : pydict) : pydict :=
  match d with
  | [] => [(k, v)]
  | (k', v') :: d' =>
      if String.eqb k k' then (k', v) :: d' else (k', v') :: dict_set k v d'
  end.

(** [d.update(e)] *)
Definition dict_update (d e : pydict) : pydict :=
  fold_left (fun acc kv => dict_set (fst kv) (snd kv) acc) e d.

(** Truth value of an [Optional[Dict]]: [None] and the empty dict are false. *)
Definition dict_truthy (o : option pydict) : bool :=
  match o with
  | None => false
  | Some [] => false
  | Some (_ :: _) => true
  end.

(** Truth value of an arbitrary value. *)
Definition truthy (v : pyval) : bool :=
  match v with
  | PNone => false
  | PBool b => b
  | PInt z => negb (z =? 0)
  | PStr s => str_truthy s
  | PList l | PTuple l => match l with [] => false | _ => true end
  | PDict d => match d with [] => false | _ => true end
  | PObject _ => true
  | PRefused _ => true
  end.

(** [d.update(v)] where [v] is the value an attribute holds.  The callers in
    this repository put a dict there.  A dict the encoder refuses is merged
    by Python and makes the [json.dumps] that follows the merge raise: the
    model raises its exception at the merge.  For every other value the
    model raises the [TypeError] Python raises for a value it cannot read as
    key-value pairs (Python also takes an iterable of pairs; none is passed
    here). *)
Definition update_with (d : pydict) (v : pyval) : result pydict :=
  match v with
  | PDict e => Ok (dict_update d e)
  | PRefused e => Raise e
  | _ => Raise (TypeError "cannot convert dictionary update sequence")
  end.

(** ** More of the Python prelude: [str.upper], slices, enumeration lookup *)

Definition upper_char (c : ascii) : ascii :=
  let n := N_of_ascii c in
  if ((97 <=? n) && (n <=? 122))%N then ascii_of_N (n - 32) else c.

(** [s.upper()], exact on ASCII; a string with other characters is mapped to
    a string that, as in Python, names no level of the logging module. *)
Fixpoint upper (s : string) : string :=
  match s with
  | EmptyString => EmptyString
  | String c s' => String (upper_char c) (upper s')
  end.

(** An index of a slice brought into [0..n], as [slice.indices] does. *)
Definition clamp_index (n x : Z) : Z :=
  if x <? 0 then Z.max 0 (x + n) else Z.min x n.

(** [l[a:b]] *)
Definition py_slice {A : Type} (a b : Z) (l : list A) : list A :=
  let n := Z.of_nat (length l) in
  let a' := clamp_index n a in
  let b' := clamp_index n b in
  take (Z.to_nat (b' - a')) (drop (Z.to_nat a') l).

(** [LogLevel(s)]: the member whose value is [s]. *)
Definition LogLevel_of_value (s : string) : result LogLevel :=
  if String.eqb s "DEBUG" then Ok DEBUG
  else if String.eqb s "INFO" then Ok INFO
  else if String.eqb s "WARNING" then Ok WARNING
  else if String.eqb s "ERROR" then Ok ERROR
  else if String.eqb s "CRITICAL" then Ok CRITICAL
  else Raise (ValueError (s +:+ " is not a valid LogLevel")).

(** * The [json] module: [json.dumps] *)

(** The document a value is encoded as.  A tuple is encoded as an array. *)
#[local] Unset Elimination Schemes.
Inductive json : Type :=
  | JNull
  | JBool (b : bool)
  | JInt (z : Z)
  | JStr (s : string)
  | JArr (l : list json)
  | JObj (d : list (string * json)).
#[local] Set Elimination Schemes.

Definition dquote : ascii := ascii_of_N 34.
Definition backslash : ascii := ascii_of_N 92.

Definition hex_digit (n : N) : ascii :=
  if (n <? 10)%N then ascii_of_N (48 + n) else ascii_of_N (87 + n).

(** ['\\u{0:04x}'.format(n)] for a code point below 256. *)
Definition u_escape (n : N) : string :=
  String backslash (String "u" (String "0" (String "0"
    (String (hex_digit (n / 16)) (String (hex_digit (n mod 16)) EmptyString))))).

(** One character of a string literal: [ESCAPE_DCT], then [\u00xx] for the
    remaining control characters and, under [ensure_ascii], for everything
    outside [' '..'~']. *)
Definition escape_char (ensure_ascii : bool) (c : ascii) : string :=
  let n := N_of_ascii c in
  if (n =? 34)%N then String backslash (String dquote EmptyString)
  else if (n =? 92)%N then String backslash (String backslash EmptyString)
  else if (n =? 8)%N then String backslash "b"
  else if (n =? 12)%N then String backslash "f"
  else if (n =? 10)%N then String backslash "n"
  else if (n =? 13)%N then String backslash "r"
  else if (n =? 9)%N then String backslash "t"
  else if (n <? 32)%N then u_escape n
  else if ensure_ascii && (126 <? n)%N then u_escape n
  else String c EmptyString.

Fixpoint escape_str (ensure_ascii : bool) (s : string) : string :=
  match s with
  | EmptyString => EmptyString
  | String c s' => escape_char ensure_ascii c +:+ escape_str ensure_ascii s'
  end.

Definition encode_str (ensure_ascii : bool) (s : string) : string :=
  String dquote (escape_str ensure_ascii s +:+ String dquote EmptyString).

(** [str(z)] for an [int]. *)
Definition str_of_Z (z : Z) : string :=
  DecimalString.NilZero.string_of_int (Z.to_int z).

(** The text of a document, with the default separators [", "] and [": "]. *)
Fixpoint render (ea : bool) (j : json) : string :=
  match j with
  | JNull => "null"
  | JBool true => "true"
  | JBool false => "false"
  | JInt z => str_of_Z z
  | JStr s => encode_str ea s
  | JArr l =>
      let fix items (l : list json) : string :=
        match l with
        | [] => "]"
        | x :: l' => ", " +:+ render ea x +:+ items l'
        end in
      match l with
      | [] => "[]"
      | x :: l' => "[" +:+ render ea x +:+ items l'
      end
  | JObj d =>
      let fix members (d : list (string * json)) : string :=
        match d with
        | [] => "}"
        | (k, x) :: d' =>
            ", " +:+ encode_str ea k +:+ ": " +:+ render ea x +:+ members d'
        end in
      match d with
      | [] => "{}"
      | (k, x) :: d' =>
          "{" +:+ encode_str ea k +:+ ": " +:+ render ea x +:+ members d'
      end
  end.

(** The encoder's walk over a value.  [dflt] is [true] when the call passes
    [default=str]: a value without an encoding is then replaced by its
    [str()]; without it the encoder raises [TypeError]. *)
Fixpoint to_json (dflt : bool) (v : pyval) : result json :=
  match v with
  | PNone => Ok JNull
  | PBool b => Ok (JBool b)
  | PInt z => Ok (JInt z)
  | PStr s => Ok (JStr s)
  | PList l | PTuple l =>
      let fix items (l : list pyval) : result (list json) :=
        match l with
        | [] => Ok []
        | x :: l' => jx <- to_json dflt x ;; jl <- items l' ;; Ok (jx :: jl)
        end in
      jl <- items l ;; Ok (JArr jl)
  | PDict d =>
      let fix members (d : list (string * pyval))
        : result (list (string * json)) :=
        match d with
        | [] => Ok []
        | (k, x) :: d' =>
            jx <- to_json dflt x ;; jd <- members d' ;; Ok ((k, jx) :: jd)
        end in
      jd <- members d ;; Ok (JObj jd)
  | PObject s =>
      if dflt then Ok (JStr s)
      else Raise (TypeError "Object is not JSON serializable")
  | PRefused e => Raise e
  end.

(** [json.dumps(v, ensure_ascii=ea)], and with [default=str] when [dflt]. *)
Definition dumps (ea dflt : bool) (v : pyval) : result string :=
  j <- to_json dflt v ;; Ok (render ea j).

(** * The [json] module: [json.loads]

    The reader of the documents: the grammar of JSON without the numbers
    that have a fraction or an exponent (floats are outside the value
    universe), and with [\uXXXX] limited to the code points below 256.
    [fuel] bounds the number of nested calls; a text never needs more than
    its length. *)

Definition is_ws (c : ascii) : bool :=
  let n := N_of_ascii c in
  ((n =? 32) || (n =? 9) || (n =? 10) || (n =? 13))%N.

Fixpoint skip_ws (s : string) : string :=
  match s with
  | String c s' => if is_ws c then skip_ws s' else s
  | EmptyString => EmptyString
  end.






Definition hex_value (c : ascii) : option N :=
  let n := N_of_ascii c in
  if ((48 <=? n) && (n <=? 57))%N then Some (n - 48)%N
  else if ((97 <=? n) && (n <=? 102))%N then Some (n - 87)%N
  else if ((65 <=? n) && (n <=? 70))%N then Some (n - 55)%N
  else None.

(** The character an escape of four hexadecimal digits stands for, when its
    code point is below 256. *)
Definition unicode_escape (a b c d : ascii) : option ascii :=
  match hex_value a, hex_value b, hex_value c, hex_value d with
  | Some 0%N, Some 0%N, Some x, Some y => Some (ascii_of_N (16 * x + y))
  | _, _, _, _ => None
  end.

(** The character a two-character escape stands for. *)
Definition simple_escape (e : ascii) : option ascii :=
  let n := N_of_ascii e in
  if (n =? 34)%N then Some dquote
  else if (n =? 92)%N then Some backslash
  else if (n =? 47)%N then Some (ascii_of_N 47)
  else if (n =? 98)%N then Some (ascii_of_N 8)
  else if (n =? 102)%N then Some (ascii_of_N 12)
  else if (n =? 110)%N then Some (ascii_of_N 10)
  else if (n =? 114)%N then Some (ascii_of_N 13)
  else if (n =? 116)%N then Some (ascii_of_N 9)
  else None.

Definition cons_char (c : ascii) (r : option (string * string))
  : option (string * string) :=
  match r with
  | Some (s, rest) => Some (String c s, rest)
  | None => None
  end.

(** The characters of a string literal, from after the opening quote to the
    closing quote. *)
Fixpoint parse_chars (s : string) : option (string * string) :=
  match s with
  | EmptyString => None
  | String c s' =>
      if (N_of_ascii c =? 34)%N then Some (EmptyString, s')
      else if (N_of_ascii c =? 92)%N then
        match s' with
        | String e s'' =>
            if (N_of_ascii e =? 117)%N then
              match s'' with
              | String a (String b (String x (String y rest))) =>
                  match unicode_escape a b x y with
                  | Some ch => cons_char ch (parse_chars rest)
                  | None => None
                  end
              | _ => None
              end
            else
              match simple_escape e with
              | Some ch => cons_char ch (parse_chars s'')
              | None => None
              end
        | EmptyString => None
        end
      else if (N_of_ascii c <? 32)%N then None
      else cons_char c (parse_chars s')
  end.




(** What follows a member of an object. *)
Definition after_member (more : string -> option (list (string * json) * string))
    (k : string) (x : json) (r : string)
  : option (list (string * json) * string) :=
  match skip_ws r with
  | String c r' =>
      if (N_of_ascii c =? 44)%N then
        match more r' with
        | Some (d, r'') => Some ((k, x) :: d, r'')
        | None => None
        end
      else if (N_of_ascii c =? 125)%N then Some ([(k, x)], r')
      else None
  | EmptyString => None
  end.

(** The members of an object, from after [{] or [,] to after [}]. *)
Definition members (value : string -> option (json * string))
    (more : string -> option (list (string * json) * string)) (s : string)
  : option (list (string * json) * string) :=
  match skip_ws s with
  | String q s' =>
      if (N_of_ascii q =? 34)%N then
        match parse_chars s' with
        | Some (k, r) =>
            match skip_ws r with
            | String c r' =>
                if (N_of_ascii c =? 58)%N then
                  match value r' with
                  | Some (x, r'') => after_member more k x r''
                  | None => None
                  end
                else None
            | EmptyString => None
            end
        | None => None
        end
      else None
  | EmptyString => None
  end.





(** * [datetime] *)

Record datetime : Type := {
  year : Z; month : Z; day : Z;
  hour : Z; minute : Z; second : Z; microsecond : Z
}.

(** The order of two instants, as one integer key (the fields are in their
    calendar ranges). *)
Definition dt_key (d : datetime) : Z :=
  (((((year d * 13 + month d) * 32 + day d) * 24 + hour d) * 60
    + minute d) * 60 + second d) * 1000000 + microsecond d.

Fixpoint zeros (n : nat) : string :=
  match n with O => EmptyString | S n' => String "0" (zeros n') end.

(** ['%0wd' % z] for a natural [z]. *)
Definition zpad (w : nat) (z : Z) : string :=
  let s := str_of_Z z in zeros (w - String.length s) +:+ s.

(** [d.isoformat()] *)
Definition isoformat (d : datetime) : string :=
  zpad 4 (year d) +:+ "-" +:+ zpad 2 (month d) +:+ "-" +:+ zpad 2 (day d)
  +:+ "T" +:+ zpad 2 (hour d) +:+ ":" +:+ zpad 2 (minute d) +:+ ":"
  +:+ zpad 2 (second d)
  +:+ (if microsecond d =? 0 then EmptyString
       else "." +:+ zpad 6 (microsecond d)).

(** * The [logging] module

    The part of the standard library's [logging] the sources rely on: named
    loggers with a level and handlers, the level gate of [Logger.log], the
    construction of the record, and the hand-over of the record to every
    handler.  Every named logger is a child of the root logger (dotted names
    are not given a hierarchy of their own).  A handler's [emit] formats and
    writes the record and keeps any exception of the formatter or of the
    stream to itself, so the trace [emitted] lists the records handed to
    handlers. *)

Inductive Stream : Type := Stdout | Stderr | File (path : string).

Inductive Formatter : Type :=
  | PercentFormatter (fmt : string)
  | ServiceLogFormatter
  | RouterStructuredFormatter
  | ModelsStructuredFormatter.

Record Handler : Type := {
  h_stream : Stream;
  h_level : Z;
  h_formatter : option Formatter
}.

(** The frame of a caller, as [inspect] and [Logger.findCaller] read it. *)
Record Frame : Type := {
  f_name : option string;   (* f_globals.get('__name__') *)
  f_module : string;        (* the stem of the file name *)
  f_function : string;      (* f_code.co_name *)
  f_lineno : Z;
  f_pathname : string
}.

Record LogRecord : Type := {
  r_name : string;
  r_levelno : Z;
  r_levelname : string;
  r_msg : string;
  r_module : string;
  r_funcName : string;
  r_lineno : Z;
  r_pathname : string;
  r_created : datetime;
  r_exc_info : option string;
  r_extra : pydict           (* the attributes set from [extra] *)
}.

Record PyLogger : Type := {
  lg_level : Z;
  lg_handlers : list Handler;
  lg_propagate : bool
}.

Record Logging : Type := {
  loggers : gmap string PyLogger;
  emitted : list (Handler * LogRecord)
}.

Definition NOTSET : Z := 0.

Definition root_name : string := "root".

(** [logging.getLogger(name)]: a logger not yet configured has no level and
    no handler; the root logger starts at WARNING. *)
Definition getLogger (name : string) (lg : Logging) : PyLogger :=
  match loggers lg !! name with
  | Some l => l
  | None =>
      {| lg_level := if String.eqb name root_name then levelno WARNING else NOTSET;
         lg_handlers := []; lg_propagate := true |}
  end.

Definition set_logger (name : string) (l : PyLogger) (lg : Logging) : Logging :=
  {| loggers := <[name := l]> (loggers lg); emitted := emitted lg |}.

(** [logger.setLevel(n)] *)
Definition setLevel (name : string) (n : Z) (lg : Logging) : Logging :=
  let l := getLogger name lg in
  set_logger name {| lg_level := n; lg_handlers := lg_handlers l;
                     lg_propagate := lg_propagate l |} lg.

(** [logger.addHandler(h)] *)
Definition addHandler (name : string) (h : Handler) (lg : Logging) : Logging :=
  let l := getLogger name lg in
  set_logger name {| lg_level := lg_level l; lg_handlers := lg_handlers l ++ [h];
                     lg_propagate := lg_propagate l |} lg.

(** [logger.handlers.clear()] *)
Definition clearHandlers (name : string) (lg : Logging) : Logging :=
  let l := getLogger name lg in
  set_logger name {| lg_level := lg_level l; lg_handlers := [];
                     lg_propagate := lg_propagate l |} lg.

(** [logger.propagate = b] *)
Definition setPropagate (name : string) (b : bool) (lg : Logging) : Logging :=
  let l := getLogger name lg in
  set_logger name {| lg_level := lg_level l; lg_handlers := lg_handlers l;
                     lg_propagate := b |} lg.

(** [logger.getEffectiveLevel()] *)
Definition getEffectiveLevel (name : string) (lg : Logging) : Z :=
  let l := getLogger name lg in
  if negb (lg_level l =? NOTSET) then lg_level l
  else if String.eqb name root_name then NOTSET
  else lg_level (getLogger root_name lg).

(** [logger.isEnabledFor(n)] *)
Definition isEnabledFor (name : string) (n : Z) (lg : Logging) : bool :=
  getEffectiveLevel name lg <=? n.

(** [logging.getLevelName(n)] *)
Definition getLevelName (n : Z) : string :=
  if n =? 50 then "CRITICAL" else if n =? 40 then "ERROR"
  else if n =? 30 then "WARNING" else if n =? 20 then "INFO"
  else if n =? 10 then "DEBUG" else if n =? 0 then "NOTSET"
  else "Level " +:+ str_of_Z n.

(** [getattr(logging, name)] for the level constants of the module. *)
Definition logging_attr (name : string) : result Z :=
  if String.eqb name "CRITICAL" || String.eqb name "FATAL" then Ok 50
  else if String.eqb name "ERROR" then Ok 40
  else if String.eqb name "WARNING" || String.eqb name "WARN" then Ok 30
  else if String.eqb name "INFO" then Ok 20
  else if String.eqb name "DEBUG" then Ok 10
  else if String.eqb name "NOTSET" then Ok 0
  else Raise (AttributeError name).

(** The attributes a fresh [LogRecord] has; [extra] may not name them. *)
Definition record_attributes : list string :=
  [ "name"; "msg"; "args"; "levelname"; "levelno"; "pathname"; "filename";
    "module"; "exc_info"; "exc_text"; "stack_info"; "lineno"; "funcName";
    "created"; "msecs"; "relativeCreated"; "thread"; "threadName";
    "processName"; "process"; "taskName" ].

Definition mem_str (k : string) (l : list string) : bool :=
  existsb (String.eqb k) l.

(** The loop of [Logger.makeRecord] over [extra]. *)
Fixpoint check_extra (extra : pydict) : result unit :=
  match extra with
  | [] => Ok tt
  | (k, _) :: e' =>
      if mem_str k ["message"; "asctime"] || mem_str k record_attributes
      then Raise (KeyError k)
      else check_extra e'
  end.

Definition makeRecord (name : string) (n : Z) (msg : string) (extra : pydict)
    (exc : option string) (fr : Frame) (now : datetime) : result LogRecord :=
  _ <- check_extra extra ;;
  Ok {| r_name := name; r_levelno := n; r_levelname := getLevelName n;
        r_msg := msg; r_module := f_module fr; r_funcName := f_function fr;
        r_lineno := f_lineno fr; r_pathname := f_pathname fr;
        r_created := now; r_exc_info := exc;
        r_extra := dict_update [] extra |}.

(** The handlers among [hs] that take a record of severity [n]. *)
Definition taking (n : Z) (hs : list Handler) : list Handler :=
  filter (fun h => h_level h <= n) hs.

(** The handler of last resort: standard error, at WARNING. *)
Definition lastResort : Handler :=
  {| h_stream := Stderr; h_level := levelno WARNING; h_formatter := None |}.

(** [logger.callHandlers(record)]: the logger's handlers, then the root's
    when the logger propagates; the handler of last resort when none was
    found. *)
Definition callHandlers (name : string) (r : LogRecord) (lg : Logging)
  : Logging :=
  let l := getLogger name lg in
  let up := if lg_propagate l && negb (String.eqb name root_name)
            then lg_handlers (getLogger root_name lg) else [] in
  let found := lg_handlers l ++ up in
  let hs := match found with
            | [] => taking (r_levelno r) [lastResort]
            | _ => taking (r_levelno r) found
            end in
  {| loggers := loggers lg;
     emitted := emitted lg ++ map (fun h => (h, r)) hs |}.

(** [logger.log(n, msg, extra=extra, exc_info=exc)], called from [fr] at
    instant [now]. *)
Definition Logger_log (name : string) (n : Z) (msg : string) (extra : pydict)
    (exc : option string) (fr : Frame) (now : datetime) (lg : Logging)
  : Logging * result unit :=
  if isEnabledFor name n lg then
    match makeRecord name n msg extra exc fr now with
    | Ok r => (callHandlers name r lg, Ok tt)
    | Raise e => (lg, Raise e)
    end
  else (lg, Ok tt).

(** [logging.FileHandler(path)] opens the file when it is built; [fs] tells
    which paths can be opened for appending. *)
Definition FileHandler (fs : string -> bool) (path : string) (f : option Formatter)
  : result Handler :=
  if fs path
  then Ok {| h_stream := File path; h_level := NOTSET; h_formatter := f |}
  else Raise (OSError path).

(** [logging.StreamHandler(stream)] with its formatter set. *)
Definition StreamHandler (s : Stream) (f : option Formatter) : Handler :=
  {| h_stream := s; h_level := NOTSET; h_formatter := f |}.

(** Handlers are compared as values. *)
#[global] Instance Stream_eq_dec : EqDecision Stream.
Proof. solve_decision. Defined.

#[global] Instance Formatter_eq_dec : EqDecision Formatter.
Proof. solve_decision. Defined.

#[global] Instance Handler_eq_dec : EqDecision Handler.
Proof. solve_decision. Defined.

(** [handlers.remove(h)]: the first handler equal to [h] goes. *)
Fixpoint remove_first (h : Handler) (hs : list Handler) : list Handler :=
  match hs with
  | [] => []
  | x :: hs' => if decide (x = h) then hs' else x :: remove_first h hs'
  end.

(** [logger.removeHandler(h)] *)
Definition removeHandler (name : string) (h : Handler) (lg : Logging) : Logging :=
  let l := getLogger name lg in
  set_logger name {| lg_level := lg_level l;
                     lg_handlers := remove_first h (lg_handlers l);
                     lg_propagate := lg_propagate l |} lg.

(** [for handler in logger.handlers: handler.setLevel(n)] *)
Definition setHandlerLevels (name : string) (n : Z) (lg : Logging) : Logging :=
  let l := getLogger name lg in
  set_logger name
    {| lg_level := lg_level l;
       lg_handlers :=
         map (fun h => {| h_stream := h_stream h; h_level := n;
                          h_formatter := h_formatter h |}) (lg_handlers l);
       lg_propagate := lg_propagate l |} lg.

(** [for handler in logger.handlers: handler.setFormatter(f)] *)
Definition setHandlerFormatters (name : string) (f : Formatter) (lg : Logging)
  : Logging :=
  let l := getLogger name lg in
  set_logger name
    {| lg_level := lg_level l;
       lg_handlers :=
         map (fun h => {| h_stream := h_stream h; h_level := h_level h;
                          h_formatter := Some f |}) (lg_handlers l);
       lg_propagate := lg_propagate l |} lg.

(** [logging._checkLevel(v)], as [setLevel] applies it to its argument. *)
Definition checkLevel (v : pyval) : result Z :=
  match v with
  | PInt z => Ok z
  | PBool b => Ok (if b then 1 else 0)
  | PStr s =>
      match logging_attr s with
      | Ok n => Ok n
      | Raise _ => Raise (ValueError ("Unknown level: " +:+ s))
      end
  | _ => Raise (TypeError "Level not an integer or a valid string")
  end.

(** * [src/services/logger_service.py] *)

Module Service.

(** The frame [Logger.findCaller] finds for a call made at [line] of
    function [fn] of this file. *)
Definition here (fn : string) (line : Z) : Frame :=
  {| f_name := Some "logger_service"; f_module := "logger_service";
     f_function := fn; f_lineno := line;
     f_pathname := "src/services/logger_service.py" |}.

(** [LogFormatter.format(record)], with [now] the reading of
    [datetime.utcnow()] the call makes. *)
Definition log_entry (now : datetime) (record : LogRecord) : result pydict :=
  let log_entry :=
    [ ("timestamp", PStr (isoformat now));
      ("level", PStr (r_levelname record));
      ("logger", PStr (r_name record));
      ("message", PStr (r_msg record));
      ("module", PStr (r_module record));
      ("function", PStr (r_funcName record));
      ("line", PInt (r_lineno record)) ] in
  log_entry <- match dict_get "extra_data" (r_extra record) with
               | Some v => update_with log_entry v
               | None => Ok log_entry
               end ;;
  Ok match r_exc_info record with
     | Some tb => dict_set "exception" (PStr tb) log_entry
     | None => log_entry
     end.

Definition format (now : datetime) (record : LogRecord) : result string :=
  e <- log_entry now record ;; dumps false false (PDict e).

Record LoggerService : Type := {
  name : string;
  config : pydict
  (* [_logger] is [logging.getLogger(name)] *)
}.

(** [LoggerService._setup_logger] *)
Definition _setup_logger (fs : string -> bool) (name : string)
    (config : pydict) (lg : Logging) : Logging * result unit :=
  match lg_handlers (getLogger name lg) with
  | _ :: _ => (lg, Ok tt)
  | [] =>
      match checkLevel (default (PInt (levelno INFO)) (dict_get "level" config)) with
      | Raise e => (lg, Raise e)
      | Ok n =>
          let lg := setLevel name n lg in
          let lg := addHandler name
                      (StreamHandler Stdout (Some ServiceLogFormatter)) lg in
          let log_file := default PNone (dict_get "file_path" config) in
          if truthy log_file then
            match log_file with
            | PStr path =>
                match FileHandler fs path (Some ServiceLogFormatter) with
                | Ok h => (setPropagate name false (addHandler name h lg), Ok tt)
                | Raise e => (lg, Raise e)
                end
            | _ => (lg, Raise (TypeError "expected str, bytes or os.PathLike object"))
            end
          else (setPropagate name false lg, Ok tt)
      end
  end.

(** [LoggerService(name, config)] *)
Definition new_LoggerService (fs : string -> bool) (name : string)
    (config : option pydict) (lg : Logging)
  : Logging * result LoggerService :=
  let config := default [] config in
  let '(lg, r) := _setup_logger fs name config lg in
  (lg, _ <- r ;; Ok {| name := name; config := config |}).

(** [{k: v for k, v in kwargs.items() if v is not None}] *)
Definition not_none (kwargs : pydict) : pydict :=
  List.filter (fun kv => match snd kv with PNone => false | _ => true end) kwargs.

(** Binding the keyword arguments of a call of [fn]: a keyword that names
    a parameter the call fills by position gives it two values, which Python
    refuses with a [TypeError] before the body runs. *)
Definition bind_kwargs (fn : string) (params : list string) (kwargs : pydict)
  : result unit :=
  match List.find (fun kv => mem_str (fst kv) params) kwargs with
  | Some kv =>
      Raise (TypeError (fn +:+ "() got multiple values for argument '"
                        +:+ fst kv +:+ "'"))
  | None => Ok tt
  end.

(** [LoggerService._log_with_extra(level, message, **kwargs)] *)
Definition _log_with_extra (self : LoggerService) (n : Z) (message : string)
    (kwargs : pydict) (now : datetime) (lg : Logging)
  : Logging * result unit :=
  match bind_kwargs "LoggerService._log_with_extra"
          ["self"; "level"; "message"] kwargs with
  | Raise e => (lg, Raise e)
  | Ok _ =>
      let extra_data := not_none kwargs in
      Logger_log (name self) n message [("extra_data", PDict extra_data)] None
                 (here "_log_with_extra" 99) now lg
  end.

(** The body the five level methods share: [fn(message, **kwargs)] hands its
    arguments to [_log_with_extra]. *)
Definition level_method (fn : string) (n : Z) (self : LoggerService)
    (message : string) (kwargs : pydict) (now : datetime) (lg : Logging)
  : Logging * result unit :=
  match bind_kwargs ("LoggerService." +:+ fn) ["self"; "message"] kwargs with
  | Raise e => (lg, Raise e)
  | Ok _ => _log_with_extra self n message kwargs now lg
  end.

Definition debug := level_method "debug" (levelno DEBUG).
Definition info := level_method "info" (levelno INFO).
Definition warning := level_method "warning" (levelno WARNING).
Definition error := level_method "error" (levelno ERROR).
Definition critical := level_method "critical" (levelno CRITICAL).


(** The class [LoggerFactory] and what its methods reach: the class-level
    dict [_instances] from a name to an object, the objects by identity
    (an object is the position at which it was allocated), and the state of
    the logging module. *)
Record Factory : Type := {
  _instances : gmap string nat;
  heap : list LoggerService;
  logging : Logging
}.

(** [LoggerFactory.create_logger(name, config)], returning the identity of
    the instance. *)
Definition create_logger (fs : string -> bool) (name : string)
    (config : option pydict) (st : Factory) : Factory * result nat :=
  match _instances st !! name with
  | Some r => (st, Ok r)
  | None =>
      match new_LoggerService fs name config (logging st) with
      | (lg, Ok obj) =>
          let r := length (heap st) in
          ({| _instances := <[name := r]> (_instances st);
              heap := heap st ++ [obj];
              logging := lg |}, Ok r)
      | (lg, Raise e) =>
          ({| _instances := _instances st; heap := heap st; logging := lg |},
           Raise e)
      end
  end.

(** [LoggerFactory.get_logger(name)] *)
Definition get_logger (name : string) (st : Factory) : option nat :=
  _instances st !! name.

(** A sequence of [create_logger] calls, with the outcome of each. *)
Fixpoint run (fs : string -> bool) (calls : list (string * option pydict))
    (st : Factory) : Factory * list (result nat) :=
  match calls with
  | [] => (st, [])
  | (name, config) :: calls' =>
      let '(st1, r) := create_logger fs name config st in
      let '(st2, rs) := run fs calls' st1 in
      (st2, r :: rs)
  end.

(** The class as the module is loaded: no instance yet. *)
Definition fresh (lg : Logging) : Factory :=
  {| _instances := ∅; heap := []; logging := lg |}.

End Service.

(** * [src/api/logger_router.py] *)

Module Router.

Definition here (fn : string) (line : Z) : Frame :=
  {| f_name := Some "logger_router"; f_module := "logger_router";
     f_function := fn; f_lineno := line;
     f_pathname := "src/api/logger_router.py" |}.

(** [StructuredFormatter.format(record)], with [now] the reading of
    [datetime.utcnow()] the call makes. *)
Definition log_entry (now : datetime) (record : LogRecord) : result pydict :=
  let log_entry :=
    [ ("timestamp", PStr (isoformat now));
      ("level", PStr (r_levelname record));
      ("logger", PStr (r_name record));
      ("message", PStr (r_msg record));
      ("module", PStr (r_module record));
      ("function", PStr (r_funcName record));
      ("line", PInt (r_lineno record)) ] in
  log_entry <- match dict_get "extra_data" (r_extra record) with
               | Some v => update_with log_entry v
               | None => Ok log_entry
               end ;;
  Ok match r_exc_info record with
     | Some tb => dict_set "exception" (PStr tb) log_entry
     | None => log_entry
     end.

Definition format (now : datetime) (record : LogRecord) : result string :=
  e <- log_entry now record ;; dumps true false (PDict e).

(** A [StructuredLogger]; its [logger] is [logging.getLogger(sl_name)]. *)
Record StructuredLogger : Type := { sl_name : string }.

(** [StructuredLogger(name, level, log_file)] *)
Definition new_StructuredLogger (fs : string -> bool) (name level : string)
    (log_file : option string) (lg : Logging)
  : Logging * result StructuredLogger :=
  match logging_attr (upper level) with
  | Raise e => (lg, Raise e)
  | Ok n =>
      let lg := setLevel name n lg in
      let lg := clearHandlers name lg in
      let formatter := Some RouterStructuredFormatter in
      let lg := addHandler name (StreamHandler Stdout formatter) lg in
      if str_truthy (default EmptyString log_file) then
        match FileHandler fs (default EmptyString log_file) formatter with
        | Ok h => (addHandler name h lg, Ok {| sl_name := name |})
        | Raise e => (lg, Raise e)
        end
      else (lg, Ok {| sl_name := name |})
  end.

(** [StructuredLogger.log(level, message, extra_data)] *)
Definition log (self : StructuredLogger) (level message : string)
    (extra_data : option pydict) (now : datetime) (lg : Logging)
  : Logging * result unit :=
  match logging_attr (upper level) with
  | Raise e => (lg, Raise e)
  | Ok log_level =>
      let extra := if dict_truthy extra_data
                   then [("extra_data", PDict (default [] extra_data))]
                   else [] in
      Logger_log (sl_name self) log_level message extra None
                 (here "log" 62) now lg
  end.

Definition debug (self : StructuredLogger) := log self "DEBUG".
Definition info (self : StructuredLogger) := log self "INFO".
Definition warning (self : StructuredLogger) := log self "WARNING".
Definition error (self : StructuredLogger) := log self "ERROR".
Definition critical (self : StructuredLogger) := log self "CRITICAL".

Record LoggerConfig : Type := {
  log_level : string;
  log_file : option string;
  app_name : string
}.

Record LogEntryCreate : Type := {
  level : LogLevel;
  message : string;
  extra_data : option pydict
}.

(** [LogEntryCreate(level=..., message=..., extra_data=...)] with
    [min_length=1] and [max_length=1000] on the message. *)
Definition new_LogEntryCreate (lvl : LogLevel) (msg : string)
    (ex : option pydict) : result LogEntryCreate :=
  if (1 <=? len msg) && (len msg <=? 1000)
  then Ok {| level := lvl; message := msg; extra_data := ex |}
  else Raise (ValidationError "message").

Record LogEntryResponse : Type := {
  id : string;
  timestamp : datetime;
  e_level : LogLevel;
  e_message : string;
  logger_name : string;
  e_extra_data : option pydict
}.

Record LoggerConfigResponse : Type := {
  c_logger_name : string;
  c_log_level : LogLevel;
  c_log_file : option string;
  handlers_count : Z
}.

Record LoggerConfigUpdate : Type := {
  u_log_level : option LogLevel;
  u_log_file : option string
}.

Record LogQueryParams : Type := {
  q_level : option LogLevel;
  start_time : option datetime;
  end_time : option datetime;
  limit : Z;
  offset : Z
}.

(** [LogQueryParams(...)] with [ge=1, le=1000] on the limit and [ge=0] on
    the offset. *)
Definition new_LogQueryParams (lvl : option LogLevel)
    (st en : option datetime) (lim off : Z) : result LogQueryParams :=
  if (1 <=? lim) && (lim <=? 1000) && (0 <=? off)
  then Ok {| q_level := lvl; start_time := st; end_time := en;
             limit := lim; offset := off |}
  else Raise (ValidationError "limit or offset").

Record LoggerService : Type := {
  config : LoggerConfig;
  logger : StructuredLogger;
  log_entries : list LogEntryResponse
}.

(** [LoggerService(config)] *)
Definition new_LoggerService (fs : string -> bool) (config : LoggerConfig)
    (lg : Logging) : Logging * result LoggerService :=
  let '(lg, r) := new_StructuredLogger fs (app_name config)
                    (log_level config) (log_file config) lg in
  (lg, l <- r ;; Ok {| config := config; logger := l; log_entries := [] |}).

(** [LoggerService.create_log_entry(log_data)]; [entry_id] is the value of
    [uuid.uuid4()], [now] the reading of [datetime.utcnow()], [t_record] the
    instant at which the logging module makes its record. *)
Definition create_log_entry (self : LoggerService) (log_data : LogEntryCreate)
    (entry_id : string) (now t_record : datetime) (lg : Logging)
  : LoggerService * Logging * result LogEntryResponse :=
  match log (logger self) (level_value (level log_data))
            (message log_data) (extra_data log_data) t_record lg with
  | (lg, Raise e) => (self, lg, Raise e)
  | (lg, Ok _) =>
      let log_entry :=
        {| id := entry_id; timestamp := now; e_level := level log_data;
           e_message := message log_data;
           logger_name := app_name (config self);
           e_extra_data := extra_data log_data |} in
      ({| config := config self; logger := logger self;
          log_entries := log_entries self ++ [log_entry] |}, lg, Ok log_entry)
  end.

(** The three filters of [get_log_entries]. *)
Definition matching (query_params : LogQueryParams)
    (entries : list LogEntryResponse) : list LogEntryResponse :=
  let filtered_entries := entries in
  let filtered_entries :=
    match q_level query_params with
    | Some l => List.filter (fun e => LogLevel_eqb (e_level e) l) filtered_entries
    | None => filtered_entries
    end in
  let filtered_entries :=
    match start_time query_params with
    | Some t => List.filter (fun e => dt_key t <=? dt_key (timestamp e)) filtered_entries
    | None => filtered_entries
    end in
  match end_time query_params with
  | Some t => List.filter (fun e => dt_key (timestamp e) <=? dt_key t) filtered_entries
  | None => filtered_entries
  end.

(** [LoggerService.get_log_entries(query_params)] *)
Definition get_log_entries (self : LoggerService)
    (query_params : LogQueryParams) : list LogEntryResponse :=
  let filtered_entries := matching query_params (log_entries self) in
  let start_idx := offset query_params in
  let end_idx := start_idx + limit query_params in
  py_slice start_idx end_idx filtered_entries.

(** [LoggerService.get_log_entry(entry_id)] *)
Definition get_log_entry (self : LoggerService) (entry_id : string)
  : option LogEntryResponse :=
  List.find (fun entry => String.eqb (id entry) entry_id) (log_entries self).

(** [LoggerService.get_logger_config()] *)
Definition get_logger_config (self : LoggerService) (lg : Logging)
  : result LoggerConfigResponse :=
  l <- LogLevel_of_value (log_level (config self)) ;;
  Ok {| c_logger_name := app_name (config self);
        c_log_level := l;
        c_log_file := log_file (config self);
        handlers_count :=
          Z.of_nat (length (lg_handlers (getLogger (sl_name (logger self)) lg))) |}.

(** [LoggerService.update_logger_config(config_update)] *)
Definition update_logger_config (fs : string -> bool) (self : LoggerService)
    (config_update : LoggerConfigUpdate) (lg : Logging)
  : LoggerService * Logging * result LoggerConfigResponse :=
  let '(self, lg) :=
    match u_log_level config_update with
    | Some l =>
        ({| config := {| log_level := level_value l;
                         log_file := log_file (config self);
                         app_name := app_name (config self) |};
            logger := logger self; log_entries := log_entries self |},
         setLevel (sl_name (logger self)) (levelno l) lg)
    | None => (self, lg)
    end in
  match u_log_file config_update with
  | Some f =>
      let self :=
        {| config := {| log_level := log_level (config self);
                        log_file := Some f;
                        app_name := app_name (config self) |};
           logger := logger self; log_entries := log_entries self |} in
      match new_StructuredLogger fs (app_name (config self))
              (log_level (config self)) (log_file (config self)) lg with
      | (lg, Raise e) => (self, lg, Raise e)
      | (lg, Ok l) =>
          let self := {| config := config self; logger := l;
                         log_entries := log_entries self |} in
          (self, lg, get_logger_config self lg)
      end
  | None => (self, lg, get_logger_config self lg)
  end.

(** [LoggerService.delete_log_entries()] *)
Definition delete_log_entries (self : LoggerService) : LoggerService * Z :=
  let count := Z.of_nat (length (log_entries self)) in
  ({| config := config self; logger := logger self; log_entries := [] |}, count).

End Router.

(** * [src/models/logger.py] *)

Module Models.

Record LogEntryCreate : Type := {
  level : LogLevel;
  message : string;
  module : option string;
  function : option string;
  line_number : option Z;
  extra_data : option pydict
}.

(** [Field(max_length=n)] on a [str] field. *)
Definition check_max_length (n : Z) (v : string) : result string :=
  if len v <=? n then Ok v
  else Raise (ValidationError "ensure this value has at most the allowed number of characters").

Definition check_opt_max_length (n : Z) (v : option string)
  : result (option string) :=
  match v with
  | None => Ok None
  | Some s => s' <- check_max_length n s ;; Ok (Some s')
  end.

(** [Field(ge=1)] on the optional line number. *)
Definition check_opt_ge (n : Z) (v : option Z) : result (option Z) :=
  match v with
  | None => Ok None
  | Some z =>
      if n <=? z then Ok (Some z)
      else Raise (ValidationError "ensure this value is greater than or equal to the bound")
  end.

(** [LogEntryCreate.validate_message]; the [ValueError] it raises reaches
    the caller of the constructor as a validation error. *)
Definition validate_message (v : string) : result string :=
  if negb (str_truthy v) || negb (str_truthy (strip v))
  then Raise (ValidationError "Message cannot be empty")
  else Ok (strip v).

(** The [message] field: the declared constraint runs on the raw input,
    the class validator runs on what the constraint let through. *)
Definition message_field (v : string) : result string :=
  v' <- check_max_length 1000 v ;; validate_message v'.

(** [LogEntryCreate(level=..., message=..., ...)] *)
Definition new_LogEntryCreate (lvl : LogLevel) (msg : string)
    (md fn : option string) (ln : option Z) (ex : option pydict)
  : result LogEntryCreate :=
  msg' <- message_field msg ;;
  md' <- check_opt_max_length 100 md ;;
  fn' <- check_opt_max_length 100 fn ;;
  ln' <- check_opt_ge 1 ln ;;
  Ok {| level := lvl; message := msg'; module := md'; function := fn';
        line_number := ln'; extra_data := ex |}.

(** [StructuredFormatter.format(record)]: the time is the record's own,
    the caller's mapping goes under a key of its own, and [default=str]
    gives an encoding to every value but the containers the encoder
    refuses. *)
Definition log_data (record : LogRecord) : pydict :=
  let log_data :=
    [ ("timestamp", PStr (isoformat (r_created record)));
      ("level", PStr (r_levelname record));
      ("message", PStr (r_msg record));
      ("module", PStr (r_module record));
      ("function", PStr (r_funcName record));
      ("line_number", PInt (r_lineno record));
      ("pathname", PStr (r_pathname record)) ] in
  match dict_get "extra_data" (r_extra record) with
  | Some v => dict_set "extra_data" v log_data
  | None => log_data
  end.

Definition format (record : LogRecord) : result string :=
  dumps true true (PDict (log_data record)).

Definition here (fn : string) (line : Z) : Frame :=
  {| f_name := Some "logger"; f_module := "logger";
     f_function := fn; f_lineno := line;
     f_pathname := "src/models/logger.py" |}.

(** A [Logger]; its [logger] is [logging.getLogger(logger_name)]. *)
Record Logger : Type := { logger_name : string }.

(** [Logger(name, level)] *)
Definition new_Logger (name : string) (level : LogLevel) (lg : Logging)
  : Logger * Logging :=
  let lg := setLevel name (levelno level) lg in
  let lg := fold_left (fun lg handler => removeHandler name handler lg)
              (lg_handlers (getLogger name lg)) lg in
  let console_handler := StreamHandler Stdout (Some ModelsStructuredFormatter) in
  let lg := addHandler name console_handler lg in
  let lg := setPropagate name false lg in
  ({| logger_name := name |}, lg).

(** [Logger._log(level, message, extra_data)] *)
Definition _log (self : Logger) (level : LogLevel) (message : string)
    (extra_data : option pydict) (now : datetime) (lg : Logging)
  : Logging * result unit :=
  let extra := if dict_truthy extra_data
               then [("extra_data", PDict (default [] extra_data))]
               else [] in
  Logger_log (logger_name self) (levelno level) message extra None
             (here "_log" 132) now lg.

Definition debug (self : Logger) := _log self DEBUG.
Definition info (self : Logger) := _log self INFO.
Definition warning (self : Logger) := _log self WARNING.
Definition error (self : Logger) := _log self ERROR.
Definition critical (self : Logger) := _log self CRITICAL.

(** [Logger.exception(message, extra_data)]; [traceback] is the text of the
    exception being handled. *)
Definition exception (self : Logger) (message : string)
    (extra_data : option pydict) (traceback : string) (now : datetime)
    (lg : Logging) : Logging * result unit :=
  let extra := if dict_truthy extra_data
               then [("extra_data", PDict (default [] extra_data))]
               else [] in
  Logger_log (logger_name self) (levelno ERROR) message extra (Some traceback)
             (here "exception" 157) now lg.

End Models.

(** * [src/repositories/logger_repository.py] *)

Module Repository.

Definition here (fn : string) (line : Z) : Frame :=
  {| f_name := Some "logger_repository"; f_module := "logger_repository";
     f_function := fn; f_lineno := line;
     f_pathname := "src/repositories/logger_repository.py" |}.

(** A row of [log_entries]. *)
Record LogEntry : Type := {
  id : option Z;
  timestamp : datetime;
  level : LogLevel;
  message : string;
  module : option string;
  function : option string;
  line_number : option Z;
  extra_data : option string;
  created_at : datetime;
  updated_at : option datetime
}.

Record LogEntryCreate : Type := {
  c_level : LogLevel;
  c_message : string;
  c_module : option string;
  c_function : option string;
  c_line_number : option Z;
  c_extra_data : option pydict
}.

(** A patch.  The outer [None] is a field that was not set; [Some None] is
    a field set to [None] (it is part of [dict(exclude_unset=True)]). *)
Record LogEntryUpdate : Type := {
  u_level : option (option LogLevel);
  u_message : option (option string);
  u_module : option (option string);
  u_function : option (option string);
  u_line_number : option (option Z);
  u_extra_data : option (option pydict)
}.

(** The committed rows of the table, in the order of their insertion. *)
Definition Table : Type := list LogEntry.

(** The health of the storage layer during one call: [FailsAt k msg] makes
    the [k]-th database statement of the call (counted from 0) raise an
    [SQLAlchemyError] whose text is [msg]. *)
Inductive Storage : Type :=
  | Healthy
  | FailsAt (k : nat) (msg : string).

Definition fault (s : Storage) (k : nat) : option string :=
  match s with
  | Healthy => None
  | FailsAt k' msg => if Nat.eqb k k' then Some msg else None
  end.

(** The primary key the table gives the next row. *)
Definition next_id (t : Table) : Z :=
  1 + fold_right (fun e m => Z.max (default 0 (id e)) m) 0 t.

Definition with_id (i : Z) (e : LogEntry) : LogEntry :=
  {| id := Some i; timestamp := timestamp e; level := level e;
     message := message e; module := module e; function := function e;
     line_number := line_number e; extra_data := extra_data e;
     created_at := created_at e; updated_at := updated_at e |}.

Definition has_id (i : Z) (e : LogEntry) : bool :=
  match id e with Some j => i =? j | None => false end.

(** [LogRepository.create(log_entry)].  [t_timestamp] and [t_created] are
    the two readings of the clock the row's default factories make.
    Statement 0 is the commit, statement 1 the refresh. *)
Definition create (t : Table) (log_entry : LogEntryCreate)
    (t_timestamp t_created : datetime) (s : Storage)
  : Table * result LogEntry :=
  match (if dict_truthy (c_extra_data log_entry)
         then j <- dumps true false (PDict (default [] (c_extra_data log_entry))) ;;
              Ok (Some j)
         else Ok None) with
  | Raise e => (t, Raise e)
  | Ok extra_data_json =>
      let db_log :=
        {| id := None; timestamp := t_timestamp;
           level := c_level log_entry; message := c_message log_entry;
           module := c_module log_entry; function := c_function log_entry;
           line_number := c_line_number log_entry;
           extra_data := extra_data_json;
           created_at := t_created; updated_at := None |} in
      match fault s 0 with
      | Some msg =>
          (t, Raise (RuntimeError ("Failed to create log entry: " +:+ msg)))
      | None =>
          let db_log := with_id (next_id t) db_log in
          match fault s 1 with
          | Some msg =>
              (t ++ [db_log],
               Raise (RuntimeError ("Failed to create log entry: " +:+ msg)))
          | None => (t ++ [db_log], Ok db_log)
          end
      end
  end.

(** [LogRepository.get_by_id(log_id)] *)
Definition get_by_id (t : Table) (log_id : Z) (s : Storage)
  : result (option LogEntry) :=
  match fault s 0 with
  | Some msg =>
      Raise (RuntimeError ("Failed to retrieve log entry " +:+ str_of_Z log_id
                           +:+ ": " +:+ msg))
  | None => Ok (List.find (has_id log_id) t)
  end.

(** [ORDER BY timestamp DESC]: rows with the later timestamp first, rows
    with equal timestamps in the order of the table, which is the order of
    their keys (SQL leaves the order of such rows open; SQLite yields them
    as it scans them).  [insert_desc e l] puts a row of the table before the
    rows that follow it in the table and are not later than it. *)
Fixpoint insert_desc (e : LogEntry) (l : list LogEntry) : list LogEntry :=
  match l with
  | [] => [e]
  | x :: l' =>
      if dt_key (timestamp x) <=? dt_key (timestamp e)
      then e :: x :: l'
      else x :: insert_desc e l'
  end.

Definition order_by_timestamp_desc (l : list LogEntry) : list LogEntry :=
  fold_right insert_desc [] l.

(** [LIMIT limit OFFSET skip]: a negative offset skips nothing, a negative
    limit keeps everything. *)
Definition offset_limit (skip limit : Z) (l : list LogEntry) : list LogEntry :=
  let l := drop (Z.to_nat skip) l in
  if limit <? 0 then l else take (Z.to_nat limit) l.

(** [LogRepository.get_all(skip, limit)] *)
Definition get_all (t : Table) (skip limit : Z) (s : Storage)
  : result (list LogEntry) :=
  match fault s 0 with
  | Some msg => Raise (RuntimeError ("Failed to retrieve log entries: " +:+ msg))
  | None => Ok (offset_limit skip limit (order_by_timestamp_desc t))
  end.

(** [LogRepository.get_by_level(level, skip, limit)] *)
Definition get_by_level (t : Table) (lvl : LogLevel) (skip limit : Z)
    (s : Storage) : result (list LogEntry) :=
  match fault s 0 with
  | Some msg =>
      Raise (RuntimeError ("Failed to retrieve log entries by level "
                           +:+ level_value lvl +:+ ": " +:+ msg))
  | None =>
      Ok (offset_limit skip limit
            (order_by_timestamp_desc
               (List.filter (fun e => LogLevel_eqb (level e) lvl) t)))
  end.

(** The value [update] assigns to [extra_data]: a non-empty dict goes
    through [json.dumps], anything else is assigned as it is.  [inr] is a
    value the column does not take (a dict that was not encoded). *)
Definition patch_extra (u : option (option pydict))
  : result (option (option string + pydict)) :=
  match u with
  | None => Ok None
  | Some None => Ok (Some (inl None))
  | Some (Some d) =>
      if dict_truthy (Some d)
      then j <- dumps true false (PDict d) ;; Ok (Some (inl (Some j)))
      else Ok (Some (inr d))
  end.

(** The [setattr] loop of [update], then [updated_at].  The result is
    [None] when a column was given a value the table refuses at the commit:
    [None] for [level] or [message], a dict for [extra_data]. *)
Definition patched (u : LogEntryUpdate)
    (ex : option (option string + pydict)) (now : datetime) (e : LogEntry)
  : option LogEntry :=
  match u_level u, u_message u, ex with
  | Some None, _, _ | _, Some None, _ | _, _, Some (inr _) => None
  | l, m, x =>
      Some {| id := id e;
              timestamp := timestamp e;
              level := match l with Some (Some v) => v | _ => level e end;
              message := match m with Some (Some v) => v | _ => message e end;
              module := default (module e) (u_module u);
              function := default (function e) (u_function u);
              line_number := default (line_number e) (u_line_number u);
              extra_data := match x with Some (inl v) => v | _ => extra_data e end;
              created_at := created_at e;
              updated_at := Some now |}
  end.

(** The table with the row of key [i] replaced. *)
Definition store_row (i : Z) (e : LogEntry) (t : Table) : Table :=
  map (fun x => if has_id i x then e else x) t.

(** [LogRepository.update(log_id, log_update)].  Statement 0 is the select
    of [get_by_id], statement 1 the commit, statement 2 the refresh. *)
Definition update (t : Table) (log_id : Z) (log_update : LogEntryUpdate)
    (now : datetime) (s : Storage) : Table * result (option LogEntry) :=
  match get_by_id t log_id s with
  | Raise e => (t, Raise e)
  | Ok None => (t, Ok None)
  | Ok (Some db_log) =>
      match patch_extra (u_extra_data log_update) with
      | Raise e => (t, Raise e)
      | Ok ex =>
          let failed msg :=
            Raise (RuntimeError ("Failed to update log entry "
                                 +:+ str_of_Z log_id +:+ ": " +:+ msg)) in
          match patched log_update ex now db_log, fault s 1 with
          | _, Some msg => (t, failed msg)
          | None, None => (t, failed "the statement was refused")
          | Some db_log, None =>
              let t := store_row log_id db_log t in
              match fault s 2 with
              | Some msg => (t, failed msg)
              | None => (t, Ok (Some db_log))
              end
          end
      end
  end.

(** [LogRepository.delete(log_id)] *)
Definition delete (t : Table) (log_id : Z) (s : Storage)
  : Table * result bool :=
  match get_by_id t log_id s with
  | Raise e => (t, Raise e)
  | Ok None => (t, Ok false)
  | Ok (Some _) =>
      match fault s 1 with
      | Some msg =>
          (t, Raise (RuntimeError ("Failed to delete log entry "
                                   +:+ str_of_Z log_id +:+ ": " +:+ msg)))
      | None => (List.filter (fun x => negb (has_id log_id x)) t, Ok true)
      end
  end.

(** A [StructuredLogger]: its [logger] is [logging.getLogger(sl_name)], its
    [log_repository] works on the table passed along. *)
Record StructuredLogger : Type := { sl_name : string }.

Definition layout : string :=
  "%(asctime)s - %(name)s - %(levelname)s - %(funcName)s:%(lineno)d - %(message)s".

(** [StructuredLogger._configure_logger] *)
Definition _configure_logger (name : string) (lg : Logging) : Logging :=
  match lg_handlers (getLogger name lg) with
  | [] =>
      let handler := StreamHandler Stderr (Some (PercentFormatter layout)) in
      setLevel name (levelno DEBUG) (addHandler name handler lg)
  | _ :: _ => lg
  end.

(** [StructuredLogger(name, log_repository)] *)
Definition new_StructuredLogger (name : string) (lg : Logging)
  : StructuredLogger * Logging :=
  ({| sl_name := name |}, _configure_logger name lg).

(** The readings of the clock one emission makes, in the order of the
    calls: the log record, the row's two defaults, the record of the
    failure report. *)
Record Instants : Type := {
  at_record : datetime;
  at_timestamp : datetime;
  at_created : datetime;
  at_report : datetime
}.

(** [StructuredLogger._log_to_db(level, message, extra_data)].  [caller] is
    the frame two levels up, when there is one. *)
Definition _log_to_db (self : StructuredLogger) (lvl : LogLevel)
    (message : string) (extra_data : option pydict) (caller : option Frame)
    (i : Instants) (s : Storage) (lg : Logging) (t : Table)
  : Logging * Table * result unit :=
  let '(t, attempt) :=
    match caller with
    | None => (t, Raise (AttributeError "f_back"))
    | Some frame =>
        let log_entry :=
          {| c_level := lvl; c_message := message;
             c_module := f_name frame;
             c_function := Some (f_function frame);
             c_line_number := Some (f_lineno frame);
             c_extra_data := extra_data |} in
        create t log_entry (at_timestamp i) (at_created i) s
    end in
  match attempt with
  | Ok _ => (lg, t, Ok tt)
  | Raise e =>
      let '(lg, r) :=
        Logger_log (sl_name self) (levelno ERROR)
          ("Failed to log to database: " +:+ str_exn e) [] None
          (here "_log_to_db" 206) (at_report i) lg in
      (lg, t, r)
  end.

(** The name and the line of the method that emits at a level. *)
Definition method_of (lvl : LogLevel) : string * Z :=
  match lvl with
  | DEBUG => ("debug", 210)
  | INFO => ("info", 215)
  | WARNING => ("warning", 220)
  | ERROR => ("error", 225)
  | CRITICAL => ("critical", 230)
  end.

(** The body the five emission methods share: the call of the logging
    module, then [_log_to_db]. *)
Definition emit (lvl : LogLevel) (self : StructuredLogger) (message : string)
    (extra_data : option pydict) (caller : option Frame) (i : Instants)
    (s : Storage) (lg : Logging) (t : Table)
  : Logging * Table * result unit :=
  match Logger_log (sl_name self) (levelno lvl) message
          (default [] extra_data) None
          (here (fst (method_of lvl)) (snd (method_of lvl)))
          (at_record i) lg with
  | (lg, Raise e) => (lg, t, Raise e)
  | (lg, Ok _) => _log_to_db self lvl message extra_data caller i s lg t
  end.

Definition debug := emit DEBUG.
Definition info := emit INFO.
Definition warning := emit WARNING.
Definition error := emit ERROR.
Definition critical := emit CRITICAL.

(** [LoggerService.get_logger(name)] *)
Definition get_logger (name : string) (lg : Logging)
  : StructuredLogger * Logging :=
  new_StructuredLogger name lg.

(** The [StructuredLogger]s by identity, as for [LoggerFactory]: an object
    is the position at which it was allocated. *)
Record Objects : Type := {
  allocated : list StructuredLogger;
  logging : Logging
}.

(** [LoggerService.get_logger(name)], returning the identity of the object
    it builds. *)
Definition get_logger_object (name : string) (st : Objects) : Objects * nat :=
  let '(l, lg) := get_logger name (logging st) in
  ({| allocated := allocated st ++ [l]; logging := lg |},
   length (allocated st)).

(** [LoggerService.get_logs(skip, limit)] *)
Definition get_logs (t : Table) (skip limit : Z) (s : Storage) :=
  get_all t skip limit s.

(** [LoggerService.get_logs_by_level(level, skip, limit)] *)
Definition get_logs_by_level (t : Table) (lvl : LogLevel) (skip limit : Z)
    (s : Storage) :=
  get_by_level t lvl skip limit s.

(** [LoggerService.delete_log(log_id)] *)
Definition delete_log (t : Table) (log_id : Z) (s : Storage) :=
  delete t log_id s.


End Repository.

(** * [src/tests/test_logger.py]: the [Logger] the tests exercise *)

Module Tests.

Definition here (fn : string) (line : Z) : Frame :=
  {| f_name := Some "test_logger"; f_module := "test_logger";
     f_function := fn; f_lineno := line;
     f_pathname := "src/tests/test_logger.py" |}.

Definition quoted (s : string) : string :=
  String dquote (s +:+ String dquote EmptyString).

(** The two layouts of [_setup_formatter] and [_setup_handler_formatter]. *)
Definition json_layout : string :=
  "{" +:+ quoted "timestamp" +:+ ": " +:+ quoted "%(asctime)s" +:+ ", "
  +:+ quoted "level" +:+ ": " +:+ quoted "%(levelname)s" +:+ ", "
  +:+ quoted "name" +:+ ": " +:+ quoted "%(name)s" +:+ ", "
  +:+ quoted "message" +:+ ": " +:+ quoted "%(message)s" +:+ "}".

Definition text_layout : string :=
  "%(asctime)s - %(name)s - %(levelname)s - %(message)s".

Definition formatter_of (format_type : string) : Formatter :=
  if String.eqb format_type "json" then PercentFormatter json_layout
  else PercentFormatter text_layout.

(** A [Logger]: its [logger] is [logging.getLogger(name)]. *)
Record Logger : Type := {
  name : string;
  level : Z;
  format_type : string
}.

(** [Logger._setup_formatter] *)
Definition _setup_formatter (self : Logger) (lg : Logging) : Logging :=
  setHandlerFormatters (name self) (formatter_of (format_type self)) lg.

(** [Logger(name, level, format_type)] *)
Definition new_Logger (name level format_type : string) (lg : Logging)
  : Logging * result Logger :=
  match logging_attr (upper level) with
  | Raise e => (lg, Raise e)
  | Ok n =>
      let self := {| name := name; level := n; format_type := format_type |} in
      (_setup_formatter self (setLevel name n lg), Ok self)
  end.

(** [Logger._setup_handler_formatter(handler)], on a handler being built. *)
Definition _setup_handler_formatter (self : Logger) (handler : Handler)
  : Handler :=
  {| h_stream := h_stream handler; h_level := h_level handler;
     h_formatter := Some (formatter_of (format_type self)) |}.

Definition at_level (n : Z) (handler : Handler) : Handler :=
  {| h_stream := h_stream handler; h_level := n;
     h_formatter := h_formatter handler |}.

(** [Logger.add_console_handler()] *)
Definition add_console_handler (self : Logger) (lg : Logging) : Logging :=
  let console_handler := at_level (level self) (StreamHandler Stderr None) in
  addHandler (name self) (_setup_handler_formatter self console_handler) lg.


(** The message [_log] hands to the logging module. *)
Definition structured_message (message : string) (kwargs : pydict)
  : result string :=
  match kwargs with
  | [] => Ok message
  | _ :: _ => j <- dumps true false (PDict kwargs) ;; Ok (message +:+ " | " +:+ j)
  end.

(** [Logger._log(level, message, **kwargs)] *)
Definition _log (self : Logger) (n : Z) (message : string) (kwargs : pydict)
    (now : datetime) (lg : Logging) : Logging * result unit :=
  match structured_message message kwargs with
  | Raise e => (lg, Raise e)
  | Ok structured_message =>
      Logger_log (name self) n structured_message [] None (here "_log" 88) now lg
  end.

Definition debug (self : Logger) := _log self (levelno DEBUG).
Definition info (self : Logger) := _log self (levelno INFO).
Definition warning (self : Logger) := _log self (levelno WARNING).
Definition error (self : Logger) := _log self (levelno ERROR).
Definition critical (self : Logger) := _log self (levelno CRITICAL).

(** [Logger.set_level(level)] *)
Definition set_level (self : Logger) (level : string) (lg : Logging)
  : Logger * Logging * result unit :=
  match logging_attr (upper level) with
  | Raise e => (self, lg, Raise e)
  | Ok n =>
      ({| name := name self; level := n; format_type := format_type self |},
       setHandlerLevels (name self) n (setLevel (name self) n lg), Ok tt)
  end.

(** [Logger.clear_handlers()] *)
Definition clear_handlers (self : Logger) (lg : Logging) : Logging :=
  clearHandlers (name self) lg.

End Tests.

(** * Auxiliary definitions and sample data *)

(** A message of 1001 letters. *)
Definition long_message : string :=
  string_of_list_ascii (repeat "a"%char 1001).

(** The patch in which no field is set. *)
Definition empty_patch : Repository.LogEntryUpdate :=
  {| Repository.u_level := None; Repository.u_message := None;
     Repository.u_module := None; Repository.u_function := None;
     Repository.u_line_number := None; Repository.u_extra_data := None |}.

(** The row with [updated_at] set and every other column as it was. *)
Definition touched (now : datetime) (e : Repository.LogEntry)
  : Repository.LogEntry :=
  {| Repository.id := Repository.id e;
     Repository.timestamp := Repository.timestamp e;
     Repository.level := Repository.level e;
     Repository.message := Repository.message e;
     Repository.module := Repository.module e;
     Repository.function := Repository.function e;
     Repository.line_number := Repository.line_number e;
     Repository.extra_data := Repository.extra_data e;
     Repository.created_at := Repository.created_at e;
     Repository.updated_at := Some now |}.

Definition noon : datetime :=
  {| year := 2024; month := 5; day := 17;
     hour := 12; minute := 0; second := 0; microsecond := 0 |}.

Definition later : datetime :=
  {| year := 2024; month := 5; day := 17;
     hour := 12; minute := 0; second := 1; microsecond := 250 |}.

Definition a_row : Repository.LogEntry :=
  {| Repository.id := Some 1; Repository.timestamp := noon;
     Repository.level := ERROR; Repository.message := "boom";
     Repository.module := Some "app"; Repository.function := Some "main";
     Repository.line_number := Some 7; Repository.extra_data := None;
     Repository.created_at := noon; Repository.updated_at := None |}.

(** The registry and the objects agree: a registered name leads to an
    object of that name, and every object is the one registered under its
    name. *)
Definition registered (st : Service.Factory) : Prop :=
  (forall n r, Service._instances st !! n = Some r ->
     exists o, Service.heap st !! r = Some o /\ Service.name o = n)
  /\ (forall r o, Service.heap st !! r = Some o ->
        Service._instances st !! Service.name o = Some r).

(** The draft [_log_to_db] builds from the arguments of an emission and the
    caller's frame. *)
Definition draft_of (lvl : LogLevel) (message : string)
    (extra_data : option pydict) (frame : Frame) : Repository.LogEntryCreate :=
  {| Repository.c_level := lvl; Repository.c_message := message;
     Repository.c_module := f_name frame;
     Repository.c_function := Some (f_function frame);
     Repository.c_line_number := Some (f_lineno frame);
     Repository.c_extra_data := extra_data |}.


(** A record is a failure report of [_log_to_db]. *)
Definition is_report (hr : Handler * LogRecord) : Prop :=
  r_funcName hr.2 = "_log_to_db" /\ r_levelno hr.2 = levelno ERROR.

Definition empty_logging : Logging := {| loggers := ∅; emitted := [] |}.

Definition app_frame : Frame :=
  {| f_name := Some "app"; f_module := "app"; f_function := "main";
     f_lineno := 7; f_pathname := "app.py" |}.

Definition instants : Repository.Instants :=
  {| Repository.at_record := noon; Repository.at_timestamp := noon;
     Repository.at_created := noon; Repository.at_report := later |}.

(** The logger "svc" of the repository variant, then set to WARNING. *)
Definition svc : Repository.StructuredLogger :=
  (Repository.new_StructuredLogger "svc" empty_logging).1.

Definition svc_logging : Logging :=
  (Repository.new_StructuredLogger "svc" empty_logging).2.

Definition svc_at_warning : Logging :=
  setLevel "svc" (levelno WARNING) svc_logging.

(** The handlers [StructuredLogger(name, level, log_file)] of the router
    variant leaves on its logger: the console, then the file if one is
    named. *)
Definition console : Handler :=
  StreamHandler Stdout (Some RouterStructuredFormatter).

Definition rebuilt_handlers (log_file : string) : list Handler :=
  console ::
  (if str_truthy log_file
   then [ {| h_stream := File log_file; h_level := NOTSET;
             h_formatter := Some RouterStructuredFormatter |} ]
   else []).

(** The service of the router variant under the default configuration. *)
Definition default_config : Router.LoggerConfig :=
  {| Router.log_level := "INFO"; Router.log_file := None;
     Router.app_name := "fastapi-app" |}.

Definition router_logging : Logging :=
  (Router.new_LoggerService (fun _ => true) default_config empty_logging).1.

Definition router_service : Router.LoggerService :=
  {| Router.config := default_config;
     Router.logger := {| Router.sl_name := "fastapi-app" |};
     Router.log_entries := [] |}.

(** A request for DEBUG and for a log file in a directory that is not
    there; [no_such_file] is a file system that opens nothing. *)
Definition bad_update : Router.LoggerConfigUpdate :=
  {| Router.u_log_level := Some DEBUG;
     Router.u_log_file := Some "/var/log/missing/app.log" |}.

Definition no_such_file (path : string) : bool := false.






Section json_induction.

Variable P : json -> Prop.
Hypothesis HNull : P JNull.
Hypothesis HBool : forall b, P (JBool b).
Hypothesis HInt : forall z, P (JInt z).
Hypothesis HStr : forall s, P (JStr s).
Hypothesis HArr : forall l, Forall P l -> P (JArr l).
Hypothesis HObj : forall d, Forall (fun kv => P kv.2) d -> P (JObj d).


End json_induction.





(** A list of keys without a repeat. *)
Fixpoint distinct (l : list string) : bool :=
  match l with
  | [] => true
  | k :: l' => negb (mem_str k l') && distinct l'
  end.








Section pyval_induction.

Variable P : pyval -> Prop.
Hypothesis HNone : P PNone.
Hypothesis HBool : forall b, P (PBool b).
Hypothesis HInt : forall z, P (PInt z).
Hypothesis HStr : forall s, P (PStr s).
Hypothesis HList : forall l, Forall P l -> P (PList l).
Hypothesis HTuple : forall l, Forall P l -> P (PTuple l).
Hypothesis HDict : forall d, Forall (fun kv => P kv.2) d -> P (PDict d).
Hypothesis HObject : forall s, P (PObject s).
Hypothesis HRefused : forall e, P (PRefused e).


End pyval_induction.

(** Drafts with given fields; fields that hold a tuple, on which the round
    trip fails, and fields on which it holds. *)
Definition draft_with (fields : option pydict) : Repository.LogEntryCreate :=
  {| Repository.c_level := ERROR; Repository.c_message := "boom";
     Repository.c_module := Some "app"; Repository.c_function := Some "main";
     Repository.c_line_number := Some 7; Repository.c_extra_data := fields |}.



(** A record of the logging module, as an [error("boom", code=500)] makes
    it; the same record with a field that has no JSON encoding; and the same
    record with fields named like two of the fixed keys. *)
Definition record_with (fields : pydict) : LogRecord :=
  {| r_name := "svc"; r_levelno := 40; r_levelname := "ERROR";
     r_msg := "boom"; r_module := "app"; r_funcName := "main";
     r_lineno := 7; r_pathname := "app.py"; r_created := noon;
     r_exc_info := None; r_extra := [("extra_data", PDict fields)] |}.

Definition boom_record : LogRecord := record_with [("code", PInt 500)].

Definition dated_record : LogRecord :=
  record_with [("when", PObject "2024-05-17 12:00:00")].

Definition forged_fields : pydict :=
  [("message", PStr "all is well"); ("level", PStr "INFO")].

Definition forged_record : LogRecord := record_with forged_fields.

(** Two entries created one after the other through the service of the
    router variant, and the query that asks for everything. *)
Definition entry_draft (msg : string) : Router.LogEntryCreate :=
  {| Router.level := ERROR; Router.message := msg; Router.extra_data := None |}.

Definition after_first : Router.LoggerService * Logging :=
  (Router.create_log_entry router_service (entry_draft "first") "id-1" noon
     noon router_logging).1.

Definition after_second : Router.LoggerService :=
  (Router.create_log_entry after_first.1 (entry_draft "second") "id-2" later
     later after_first.2).1.1.

Definition everything : Router.LogQueryParams :=
  {| Router.q_level := None; Router.start_time := None;
     Router.end_time := None; Router.limit := 100; Router.offset := 0 |}.

(** Rows with the later timestamp first. *)
Definition later_first (a b : Repository.LogEntry) : Prop :=
  dt_key (Repository.timestamp b) <= dt_key (Repository.timestamp a).

(** Every row has a key and no two rows share one. *)
Definition ids_ok (t : Repository.Table) : Prop :=
  NoDup (map Repository.id t) /\ Forall (fun e => is_Some (Repository.id e)) t.

(** A second row and a patch that sets the level, clears the module and
    gives new extra data. *)
Definition b_row : Repository.LogEntry :=
  {| Repository.id := Some 2; Repository.timestamp := later;
     Repository.level := INFO; Repository.message := "started";
     Repository.module := Some "app"; Repository.function := None;
     Repository.line_number := None; Repository.extra_data := None;
     Repository.created_at := later; Repository.updated_at := None |}.

Definition a_patch : Repository.LogEntryUpdate :=
  {| Repository.u_level := Some (Some CRITICAL); Repository.u_message := None;
     Repository.u_module := Some None; Repository.u_function := None;
     Repository.u_line_number := None;
     Repository.u_extra_data := Some (Some [("code", PInt 503)]) |}.

(** The console handler of the service variant, and the one of the models
    variant. *)
Definition service_console : Handler :=
  StreamHandler Stdout (Some ServiceLogFormatter).

Definition models_console : Handler :=
  StreamHandler Stdout (Some ModelsStructuredFormatter).

(** An entry passes the filters of a query. *)
Definition passes (q : Router.LogQueryParams) (e : Router.LogEntryResponse)
  : Prop :=
  (forall l, Router.q_level q = Some l -> Router.e_level e = l)
  /\ (forall t, Router.start_time q = Some t ->
        dt_key t <= dt_key (Router.timestamp e))
  /\ (forall t, Router.end_time q = Some t ->
        dt_key (Router.timestamp e) <= dt_key t).

(** A configuration that asks for WARNING and for a log file. *)
Definition warning_to_file : pydict :=
  [("level", PInt 30); ("file_path", PStr "app.log")].

(** The state of the factory before any call. *)
Definition no_instances : Service.Factory :=
  {| Service._instances := ∅; Service.heap := [];
     Service.logging := empty_logging |}.

(** A string does not start with white space. *)
Definition no_lead (s : string) : Prop :=
  match s with
  | EmptyString => True
  | String c _ => py_isspace c = false
  end.

(** The conditions under which [models/logger.py] accepts a draft. *)
Definition acceptable (msg : string) (md fn : option string) (ln : option Z)
  : Prop :=
  len msg <= 1000 /\ strip msg <> EmptyString
  /\ (forall m, md = Some m -> len m <= 100)
  /\ (forall f, fn = Some f -> len f <= 100)
  /\ (forall n, ln = Some n -> 1 <= n).

(** The logger of the tests' fixture, and the file handler it gets at a
    level. *)
Definition fixture : Tests.Logger :=
  {| Tests.name := "test_logger"; Tests.level := 10;
     Tests.format_type := "json" |}.




(** The rows of a timestamp, and the rows of a level. *)
Definition at_time (k : Z) (e : Repository.LogEntry) : bool :=
  dt_key (Repository.timestamp e) =? k.

Definition of_level (lvl : LogLevel) (t : Repository.Table)
  : Repository.Table :=
  List.filter (fun e => LogLevel_eqb (Repository.level e) lvl) t.

(** A third row, of the timestamp of the first. *)
Definition c_row : Repository.LogEntry :=
  {| Repository.id := Some 3; Repository.timestamp := noon;
     Repository.level := ERROR; Repository.message := "again";
     Repository.module := Some "app"; Repository.function := Some "main";
     Repository.line_number := Some 9; Repository.extra_data := None;
     Repository.created_at := later; Repository.updated_at := None |}.

(** No keyword of a call names one of the parameters. *)
Definition names_none (params : list string) (kwargs : pydict) : bool :=
  forallb (fun kv => negb (mem_str (fst kv) params)) kwargs.

(** The handlers [LoggerService] of [logger_service.py] gives a logger
    under a configuration: the console, then the file if the configuration
    names one. *)
Definition service_file (path : string) : Handler :=
  {| h_stream := File path; h_level := NOTSET;
     h_formatter := Some ServiceLogFormatter |}.

Definition service_handlers (config : pydict) : list Handler :=
  service_console ::
  match default PNone (dict_get "file_path" config) with
  | PStr path => if str_truthy path then [service_file path] else []
  | _ => []
  end.

(** The record [_log_with_extra] makes of a call. *)
Definition service_record (name : string) (n : Z) (message : string)
    (kwargs : pydict) (now : datetime) : LogRecord :=
  {| r_name := name; r_levelno := n; r_levelname := getLevelName n;
     r_msg := message; r_module := "logger_service";
     r_funcName := "_log_with_extra"; r_lineno := 99;
     r_pathname := "src/services/logger_service.py";
     r_created := now; r_exc_info := None;
     r_extra := [("extra_data", PDict (Service.not_none kwargs))] |}.

(** A configuration [_setup_logger] carries out on a logger without
    handlers: its level is one [setLevel] takes, and its file, if it names
    one, is a path that can be opened. *)
Definition loadable (fs : string -> bool) (config : pydict) : bool :=
  is_ok (checkLevel (default (PInt (levelno INFO)) (dict_get "level" config)))
  && match default PNone (dict_get "file_path" config) with
     | PStr path => negb (str_truthy path) || fs path
     | v => negb (truthy v)
     end.


(** * Properties *)

(** Closes a branch of a case analysis on a request: introduces, identifies
    the requested value with the one read back, and concludes. *)
Ltac outcome :=
  intros; simplify_eq; first [done | assumption | idtac].

(** ** Strings *)

Lemma rstrip_length (s : string) :
  (String.length (rstrip s) <= String.length s)%nat.
Proof.
  induction s as [|c s IH]; simpl; [lia|].
  destruct (rstrip s) eqn:E; [destruct (py_isspace c)|]; simpl in *; lia.
Qed.

Lemma lstrip_length (s : string) :
  (String.length (lstrip s) <= String.length s)%nat.
Proof.
  induction s as [|c s IH]; simpl; [lia|].
  destruct (py_isspace c); simpl; lia.
Qed.

Lemma strip_len (s : string) : len (strip s) <= len s.
Proof.
  unfold len, strip.
  pose proof (rstrip_length (lstrip s)). pose proof (lstrip_length s). lia.
Qed.

Lemma str_truthy_false (s : string) : str_truthy s = false <-> s = EmptyString.
Proof. destruct s; simpl; split; congruence. Qed.

(** ** [models/logger.py]: construction of a [LogEntryCreate] *)

Lemma message_field_fails (msg : string) :
  is_ok (Models.message_field msg) = false
  <-> 1000 < len msg \/ strip msg = EmptyString.
Proof.
  unfold Models.message_field, Models.check_max_length, Models.validate_message.
  destruct (Z.leb_spec (len msg) 1000) as [Hle|Hgt]; simpl.
  - destruct (str_truthy msg) eqn:Hm; simpl.
    + destruct (str_truthy (strip msg)) eqn:Hs; simpl.
      * split; [discriminate|]. intros [?|E]; [lia|].
        apply str_truthy_false in E. congruence.
      * split; [|reflexivity]. intros _. right. by apply str_truthy_false.
    + split; [|reflexivity]. intros _. right.
      apply str_truthy_false in Hm. by subst.
  - split; [|reflexivity]. intros _. by left.
Qed.

Lemma message_field_ok (msg v : string) :
  Models.message_field msg = Ok v -> v = strip msg /\ len v <= 1000.
Proof.
  unfold Models.message_field, Models.check_max_length, Models.validate_message.
  destruct (Z.leb_spec (len msg) 1000) as [Hle|Hgt]; simpl; [|discriminate].
  destruct (negb (str_truthy msg) || negb (str_truthy (strip msg)));
    [discriminate|].
  intros [= <-]. split; [reflexivity|]. pose proof (strip_len msg). lia.
Qed.

(** C6, as stated, fails: a message of 1001 letters is not empty after
    trimming, and the construction of the draft is refused all the same. *)
Lemma oversized_message_refused :
  strip long_message <> EmptyString
  /\ is_ok (Models.new_LogEntryCreate INFO long_message None None None None)
     = false.
Proof. split; [vm_compute; discriminate | vm_compute; reflexivity]. Qed.

(** C6, amended: the message field refuses its input exactly when the input
    is longer than 1000 characters or empty after trimming; a refused
    message fails the construction of the draft, with a validation error;
    and when the construction succeeds the stored message is the trimmed
    input, of at most 1000 characters. *)
Theorem message_construction (lvl : LogLevel) (msg : string)
    (md fn : option string) (ln : option Z) (ex : option pydict) :
  (is_ok (Models.message_field msg) = false
     <-> 1000 < len msg \/ strip msg = EmptyString)
  /\ (is_ok (Models.message_field msg) = false ->
      exists m, Models.new_LogEntryCreate lvl msg md fn ln ex
                = Raise (ValidationError m))
  /\ (is_ok (Models.new_LogEntryCreate lvl msg None None None ex) = false
        <-> 1000 < len msg \/ strip msg = EmptyString)
  /\ (forall e, Models.new_LogEntryCreate lvl msg md fn ln ex = Ok e ->
        Models.message e = strip msg /\ len (Models.message e) <= 1000).
Proof.
  split; [apply message_field_fails|]. split; [|split].
  - unfold Models.new_LogEntryCreate.
    unfold Models.message_field, Models.check_max_length, Models.validate_message.
    destruct (len msg <=? 1000); simpl; [|eauto].
    destruct (negb (str_truthy msg) || negb (str_truthy (strip msg))); simpl;
      [eauto | discriminate].
  - rewrite <- message_field_fails. unfold Models.new_LogEntryCreate.
    destruct (Models.message_field msg); simpl; reflexivity.
  - intros e. unfold Models.new_LogEntryCreate.
    destruct (Models.message_field msg) as [v|] eqn:Hm; simpl; [|discriminate].
    apply message_field_ok in Hm.
    destruct (Models.check_opt_max_length 100 md); simpl; [|discriminate].
    destruct (Models.check_opt_max_length 100 fn); simpl; [|discriminate].
    destruct (Models.check_opt_ge 1 ln); simpl; [|discriminate].
    intros [= <-]. simpl. exact Hm.
Qed.

(** ** [logger_repository.py]: [LogRepository.update] with an empty patch *)

Lemma find_has_id (i : Z) (t : Repository.Table) (e : Repository.LogEntry) :
  List.find (Repository.has_id i) t = Some e -> Repository.has_id i e = true.
Proof. intros H. by apply List.find_some in H as [_ ?]. Qed.

Lemma find_store_row (i : Z) (t : Repository.Table) (e e' : Repository.LogEntry) :
  List.find (Repository.has_id i) t = Some e ->
  Repository.has_id i e' = true ->
  List.find (Repository.has_id i) (Repository.store_row i e' t) = Some e'.
Proof.
  intros Hf He'. induction t as [|x t IH]; simpl in *; [discriminate|].
  destruct (Repository.has_id i x) eqn:Hx; simpl.
  - by rewrite He'.
  - rewrite Hx. by apply IH.
Qed.

(** C10: on a row that exists and a healthy storage, [update] with the empty
    patch returns the row with [updated_at] set to the current time and
    every other column (id, timestamp, level, message, module, function,
    line_number, extra_data, created_at) unchanged, and that row is the one
    the table holds afterwards. *)
Theorem update_empty_patch (t : Repository.Table) (log_id : Z)
    (now : datetime) (e : Repository.LogEntry) :
  Repository.get_by_id t log_id Repository.Healthy = Ok (Some e) ->
  exists t' e',
    Repository.update t log_id empty_patch now Repository.Healthy
      = (t', Ok (Some e'))
    /\ Repository.get_by_id t' log_id Repository.Healthy = Ok (Some e')
    /\ Repository.updated_at e' = Some now
    /\ Repository.id e' = Repository.id e
    /\ Repository.level e' = Repository.level e
    /\ Repository.message e' = Repository.message e
    /\ Repository.module e' = Repository.module e
    /\ Repository.function e' = Repository.function e
    /\ Repository.line_number e' = Repository.line_number e
    /\ Repository.extra_data e' = Repository.extra_data e
    /\ Repository.timestamp e' = Repository.timestamp e
    /\ Repository.created_at e' = Repository.created_at e.
Proof.
  intros Hget.
  exists (Repository.store_row log_id (touched now e) t), (touched now e).
  unfold Repository.update. rewrite Hget. simpl.
  unfold Repository.get_by_id in *. simpl in *.
  injection Hget as Hfind.
  split; [reflexivity|]. split; [|by repeat split].
  f_equal. apply find_store_row with (e := e); [assumption|].
  apply find_has_id in Hfind. unfold Repository.has_id in *. exact Hfind.
Qed.

Lemma update_empty_patch_witness :
  exists t' e',
    Repository.update [a_row] 1 empty_patch later Repository.Healthy
      = (t', Ok (Some e'))
    /\ Repository.get_by_id t' 1 Repository.Healthy = Ok (Some e')
    /\ Repository.updated_at e' = Some later
    /\ Repository.id e' = Repository.id a_row
    /\ Repository.level e' = Repository.level a_row
    /\ Repository.message e' = Repository.message a_row
    /\ Repository.module e' = Repository.module a_row
    /\ Repository.function e' = Repository.function a_row
    /\ Repository.line_number e' = Repository.line_number a_row
    /\ Repository.extra_data e' = Repository.extra_data a_row
    /\ Repository.timestamp e' = Repository.timestamp a_row
    /\ Repository.created_at e' = Repository.created_at a_row.
Proof. apply (update_empty_patch [a_row] 1 later a_row). reflexivity. Defined.

(** ** [logger_service.py]: the registry of [LoggerFactory] *)

Section Factory.

Variable fs : string -> bool.

Lemma new_LoggerService_name n c lg lg' o :
  Service.new_LoggerService fs n c lg = (lg', Ok o) -> Service.name o = n.
Proof.
  unfold Service.new_LoggerService.
  destruct (Service._setup_logger fs n (default [] c) lg) as [lg1 [[]|e]];
    simpl; [|discriminate].
  by intros [= _ <-].
Qed.

(** A call with a registered name changes nothing and returns the
    registered instance, whatever configuration it passes. *)
Lemma create_logger_hit n c st r :
  Service._instances st !! n = Some r ->
  Service.create_logger fs n c st = (st, Ok r).
Proof. intros H. unfold Service.create_logger. by rewrite H. Qed.

Lemma create_logger_keeps n n' c st r :
  Service._instances st !! n = Some r ->
  Service._instances (Service.create_logger fs n' c st).1 !! n = Some r.
Proof.
  intros H. unfold Service.create_logger.
  destruct (Service._instances st !! n') as [r'|] eqn:Hn'; [done|].
  destruct (Service.new_LoggerService fs n' c (Service.logging st))
    as [lg [o|e]]; simpl; [|done].
  rewrite lookup_insert_ne; [done|]. intros ->. congruence.
Qed.

Lemma create_logger_ok n c st st' r :
  Service.create_logger fs n c st = (st', Ok r) ->
  Service._instances st' !! n = Some r.
Proof.
  unfold Service.create_logger.
  destruct (Service._instances st !! n) as [r'|] eqn:Hn.
  - by intros [= <- <-].
  - destruct (Service.new_LoggerService fs n c (Service.logging st))
      as [lg [o|e]]; [|discriminate].
    intros [= <- <-]. simpl. apply lookup_insert_eq.
Qed.

Lemma create_logger_registered n c st :
  registered st -> registered (Service.create_logger fs n c st).1.
Proof.
  intros [I1 I2]. unfold Service.create_logger.
  destruct (Service._instances st !! n) as [r'|] eqn:Hn; [done|].
  destruct (Service.new_LoggerService fs n c (Service.logging st))
    as [lg [o|e]] eqn:Hnew; simpl; [|done].
  apply new_LoggerService_name in Hnew.
  split; simpl.
  - intros n0 r. destruct (decide (n = n0)) as [<-|Hne].
    + rewrite lookup_insert_eq. intros [= <-]. exists o.
      split; [|done]. rewrite lookup_app_r; [|done].
      by rewrite Nat.sub_diag.
    + rewrite lookup_insert_ne; [|done]. intros H.
      destruct (I1 _ _ H) as (o' & Ho' & Hname). exists o'.
      split; [|done]. by apply lookup_app_l_Some.
  - intros r o' Hr. apply lookup_app_Some in Hr as [Hr|[Hlen Hr]].
    + pose proof (I2 _ _ Hr) as Hreg.
      rewrite lookup_insert_ne; [done|]. intros Heq.
      rewrite <- Heq in Hreg. congruence.
    + destruct (r - length (Service.heap st))%nat eqn:Hd; simpl in Hr;
        [|by destruct n0].
      injection Hr as Ho. subst o'. rewrite Hnew, lookup_insert_eq.
      f_equal. lia.
Qed.

Lemma run_registered calls st :
  registered st -> registered (Service.run fs calls st).1.
Proof.
  revert st. induction calls as [|[n c] calls IH]; intros st H; [done|].
  simpl. pose proof (create_logger_registered n c st H) as H1.
  destruct (Service.create_logger fs n c st) as [st1 r].
  specialize (IH st1 H1).
  destruct (Service.run fs calls st1) as [st2 rs]. exact IH.
Qed.

(** Once a name is registered, every later call with that name that
    returns, returns the registered instance. *)
Lemma run_hit calls st n r j c rj :
  Service._instances st !! n = Some r ->
  calls !! j = Some (n, c) ->
  (Service.run fs calls st).2 !! j = Some (Ok rj) ->
  rj = r.
Proof.
  revert st j. induction calls as [|[n' c'] calls IH]; intros st j Hreg Hc Ho;
    [done|].
  simpl in Ho. pose proof (create_logger_keeps n n' c' st r Hreg) as Hk.
  destruct (Service.create_logger fs n' c' st) as [st1 r1] eqn:Hcall.
  destruct (Service.run fs calls st1) as [st2 rs] eqn:Hrun.
  destruct j as [|j]; simpl in *.
  - injection Hc as -> ->. injection Ho as ->.
    rewrite (create_logger_hit n c st r Hreg) in Hcall. congruence.
  - apply (IH st1 j Hk Hc). by rewrite Hrun.
Qed.

Lemma run_same_name calls st i j n ci cj ri rj :
  calls !! i = Some (n, ci) -> calls !! j = Some (n, cj) ->
  (Service.run fs calls st).2 !! i = Some (Ok ri) ->
  (Service.run fs calls st).2 !! j = Some (Ok rj) ->
  ri = rj.
Proof.
  revert st i j. induction calls as [|[n' c'] calls IH]; intros st i j;
    [done|].
  simpl. destruct (Service.create_logger fs n' c' st) as [st1 r1] eqn:Hcall.
  destruct (Service.run fs calls st1) as [st2 rs] eqn:Hrun.
  intros Hi Hj Hoi Hoj.
  assert (Hrs : rs = (Service.run fs calls st1).2) by (by rewrite Hrun).
  destruct i as [|i], j as [|j]; simpl in *.
  - congruence.
  - injection Hi as -> ->. injection Hoi as ->.
    apply create_logger_ok in Hcall. symmetry.
    apply (run_hit calls st1 n ri j cj rj Hcall Hj). by rewrite <- Hrs.
  - injection Hj as -> ->. injection Hoj as ->.
    apply create_logger_ok in Hcall.
    apply (run_hit calls st1 n rj i ci ri Hcall Hi). by rewrite <- Hrs.
  - apply (IH st1 i j Hi Hj); by rewrite <- Hrs.
Qed.

End Factory.

Lemma fresh_registered (lg : Logging) : registered (Service.fresh lg).
Proof. split; simpl; intros ??; [by rewrite lookup_empty | done]. Qed.

(** ** The level gate of the logging module *)

Lemma Logger_log_disabled name n msg extra exc fr now lg :
  isEnabledFor name n lg = false ->
  Logger_log name n msg extra exc fr now lg = (lg, Ok tt).
Proof. intros H. unfold Logger_log. by rewrite H. Qed.

Lemma Logger_log_no_extra name n msg exc fr now lg :
  (Logger_log name n msg [] exc fr now lg).2 = Ok tt.
Proof. unfold Logger_log. by destruct (isEnabledFor name n lg). Qed.


Lemma levelno_pos (l : LogLevel) : 0 < levelno l.
Proof. destruct l; simpl; lia. Qed.

Lemma configured_level name lg (l : LogLevel) :
  lg_level (getLogger name lg) = levelno l ->
  getEffectiveLevel name lg = levelno l.
Proof.
  intros H. unfold getEffectiveLevel. rewrite H.
  pose proof (levelno_pos l). unfold NOTSET.
  destruct (Z.eqb_spec (levelno l) 0); [lia|done].
Qed.

Lemma below_level_disabled name lg (l1 l2 : LogLevel) :
  levelno l1 < levelno l2 ->
  lg_level (getLogger name lg) = levelno l2 ->
  isEnabledFor name (levelno l1) lg = false.
Proof.
  intros Hlt H. unfold isEnabledFor. rewrite (configured_level _ _ _ H).
  apply Z.leb_gt. lia.
Qed.

(** What [callHandlers] adds to the trace is the record, once per handler. *)
Lemma callHandlers_emitted name r lg :
  exists hs, emitted (callHandlers name r lg) = emitted lg ++ map (fun h => (h, r)) hs.
Proof. unfold callHandlers. simpl. eauto. Qed.

(** ** [logger_repository.py]: emission and persistence *)

Lemma create_healthy t d ts tc :
  is_ok (to_json false (PDict (default [] (Repository.c_extra_data d)))) = true ->
  exists row,
    Repository.create t d ts tc Repository.Healthy = (t ++ [row], Ok row)
    /\ Repository.level row = Repository.c_level d
    /\ Repository.message row = Repository.c_message d
    /\ Repository.id row = Some (Repository.next_id t).
Proof.
  intros H. unfold Repository.create, dumps.
  destruct (dict_truthy (Repository.c_extra_data d)).
  - destruct (to_json false _) as [j|]; [|discriminate]. simpl. eauto.
  - simpl. eauto.
Qed.


(** [_log_to_db] returns normally whatever happens inside it: no caller
    frame, a value that cannot be encoded, a storage failure. *)
Lemma log_to_db_never_raises self lvl message extra caller i s lg t :
  (Repository._log_to_db self lvl message extra caller i s lg t).2 = Ok tt.
Proof.
  unfold Repository._log_to_db.
  destruct (match caller with Some _ => _ | None => _ end) as [t1 [row|e]];
    [done|].
  pose proof (Logger_log_no_extra (Repository.sl_name self) (levelno ERROR)
    ("Failed to log to database: " +:+ str_exn e) None
    (Repository.here "_log_to_db" 206) (Repository.at_report i) lg) as H.
  destruct (Logger_log _ _ _ _ _ _ _ _) as [lg1 r]. by simpl in *.
Qed.

Lemma _log_to_db_reports self lvl message extra caller i s lg t :
  exists reports,
    emitted (Repository._log_to_db self lvl message extra caller i s lg t).1.1
      = emitted lg ++ reports
    /\ Forall is_report reports.
Proof.
  unfold Repository._log_to_db.
  destruct (match caller with Some _ => _ | None => _ end) as [t1 [row|e]].
  - exists []. simpl. by rewrite app_nil_r.
  - unfold Logger_log.
    destruct (isEnabledFor _ _ lg); simpl.
    + eexists. split; [reflexivity|]. apply Forall_forall.
      intros [h r] Hin. apply list_elem_of_In, in_map_iff in Hin as (h' & [= _ <-] & _).
      by split.
    + exists []. simpl. by rewrite app_nil_r.
Qed.

(** C1, as stated, fails: the logger "svc" is at WARNING and [info] is
    called; no handler receives anything, and a row is persisted. *)
Lemma info_below_warning_persists :
  emitted (Repository.info svc "ignored" None (Some app_frame) instants
             Repository.Healthy svc_at_warning []).1.1
    = emitted svc_at_warning
  /\ length (Repository.info svc "ignored" None (Some app_frame) instants
               Repository.Healthy svc_at_warning []).1.2 = 1%nat.
Proof. split; vm_compute; reflexivity. Qed.

(** C1, amended: on a logger whose level is L2, the emission method of a
    level L1 below L2 hands the record of the call to no handler, and runs
    the persistence step all the same: the call is [_log_to_db] alone.  The
    only records that can reach a handler are the reports of a failed
    persistence; when the storage is healthy and the extra data can be
    encoded, no handler is touched and exactly one row, carrying the level
    and the message of the call, is persisted. *)
Theorem emit_below_level (l1 l2 : LogLevel) (self : Repository.StructuredLogger)
    (message : string) (extra : option pydict) (caller : option Frame)
    (i : Repository.Instants) (s : Repository.Storage) (lg : Logging)
    (t : Repository.Table) :
  levelno l1 < levelno l2 ->
  lg_level (getLogger (Repository.sl_name self) lg) = levelno l2 ->
  Repository.emit l1 self message extra caller i s lg t
    = Repository._log_to_db self l1 message extra caller i s lg t
  /\ (exists reports,
        emitted (Repository.emit l1 self message extra caller i s lg t).1.1
          = emitted lg ++ reports
        /\ Forall is_report reports)
  /\ (forall frame,
        caller = Some frame -> s = Repository.Healthy ->
        is_ok (to_json false (PDict (default [] extra))) = true ->
        exists row,
          Repository.emit l1 self message extra caller i s lg t
            = (lg, t ++ [row], Ok tt)
          /\ Repository.level row = l1
          /\ Repository.message row = message).
Proof.
  intros Hlt Hlevel.
  assert (Hemit : Repository.emit l1 self message extra caller i s lg t
                  = Repository._log_to_db self l1 message extra caller i s lg t).
  { unfold Repository.emit.
    by rewrite (Logger_log_disabled _ _ _ _ _ _ _ _
                  (below_level_disabled _ _ _ _ Hlt Hlevel)). }
  split; [exact Hemit|]. rewrite Hemit. split.
  - apply _log_to_db_reports.
  - intros frame -> -> Hjson. unfold Repository._log_to_db.
    destruct (create_healthy t (draft_of l1 message extra frame)
                (Repository.at_timestamp i) (Repository.at_created i) Hjson)
      as (row & Hc & Hl & Hm & _).
    unfold draft_of in Hc. rewrite Hc. exists row. by repeat split.
Qed.

Lemma emit_below_level_witness :
  Repository.emit INFO svc "ignored" None (Some app_frame) instants
      Repository.Healthy svc_at_warning []
    = Repository._log_to_db svc INFO "ignored" None (Some app_frame) instants
        Repository.Healthy svc_at_warning [].
Proof.
  apply (emit_below_level INFO WARNING svc "ignored" None (Some app_frame)
           instants Repository.Healthy svc_at_warning []).
  - reflexivity.
  - vm_compute. reflexivity.
Defined.




(** ** [logger_router.py]: [LoggerService.update_logger_config] *)

Lemma getLogger_set_logger name l lg : getLogger name (set_logger name l lg) = l.
Proof. unfold getLogger, set_logger. simpl. by rewrite lookup_insert_eq. Qed.

Lemma logging_attr_level (l : LogLevel) :
  logging_attr (upper (level_value l)) = Ok (levelno l).
Proof. by destruct l. Qed.

Lemma LogLevel_of_level_value (l : LogLevel) :
  LogLevel_of_value (level_value l) = Ok l.
Proof. by destruct l. Qed.

(** What a successful [StructuredLogger(name, level, log_file)] leaves on
    the logger. *)
Lemma new_StructuredLogger_ok fs name level log_file lg lg' l :
  Router.new_StructuredLogger fs name level log_file lg = (lg', Ok l) ->
  Router.sl_name l = name
  /\ lg_handlers (getLogger name lg') = rebuilt_handlers (default EmptyString log_file)
  /\ logging_attr (upper level) = Ok (lg_level (getLogger name lg')).
Proof.
  unfold Router.new_StructuredLogger, rebuilt_handlers.
  destruct (logging_attr (upper level)) as [n|]; [|discriminate].
  destruct (str_truthy (default EmptyString log_file)).
  - unfold FileHandler. destruct (fs (default EmptyString log_file));
      [|discriminate].
    intros [= <- <-]. unfold addHandler, clearHandlers, setLevel.
    by rewrite !getLogger_set_logger.
  - intros [= <- <-]. unfold addHandler, clearHandlers, setLevel.
    by rewrite !getLogger_set_logger.
Qed.

(** C9, as stated, fails: the request asks for DEBUG and for a log file that
    cannot be opened; the call raises, and the configuration is no longer
    the prior one (its level and its file are the requested ones), nor is
    the level of the logger. *)
Lemma update_logger_config_not_atomic :
  is_ok (Router.update_logger_config no_such_file router_service bad_update
           router_logging).2 = false
  /\ Router.config (Router.update_logger_config no_such_file router_service
                      bad_update router_logging).1.1
     <> Router.config router_service
  /\ lg_level (getLogger "fastapi-app"
                 (Router.update_logger_config no_such_file router_service
                    bad_update router_logging).1.2)
     <> lg_level (getLogger "fastapi-app" router_logging).
Proof. repeat split; vm_compute; discriminate. Qed.

(** C9, amended: a reconfiguration either returns the configuration now in
    effect, in which every requested field has its new value, a field that
    was not requested has its old one and, when a log file was requested,
    the handlers of the logger are the ones built anew under the new
    configuration (the console, then the file); or it raises, which informs
    the caller.  It is not atomic: when it raises, the fields that were
    requested keep the values assigned to them. *)
Theorem update_logger_config_outcomes (fs : string -> bool)
    (self : Router.LoggerService) (upd : Router.LoggerConfigUpdate)
    (lg : Logging) :
  let name := Router.app_name (Router.config self) in
  match Router.update_logger_config fs self upd lg with
  | (self', lg', Ok resp) =>
      Router.get_logger_config self' lg' = Ok resp
      /\ (forall l, Router.u_log_level upd = Some l ->
            Router.log_level (Router.config self') = level_value l
            /\ Router.c_log_level resp = l)
      /\ (forall l, Router.u_log_level upd = Some l -> Router.u_log_file upd = None ->
            lg_level (getLogger (Router.sl_name (Router.logger self)) lg')
            = levelno l)
      /\ (forall f, Router.u_log_file upd = Some f ->
            Router.log_file (Router.config self') = Some f
            /\ Router.c_log_file resp = Some f
            /\ lg_handlers (getLogger name lg') = rebuilt_handlers f
            /\ logging_attr (upper (Router.log_level (Router.config self')))
               = Ok (lg_level (getLogger name lg')))
      /\ (Router.u_log_level upd = None ->
            Router.log_level (Router.config self')
            = Router.log_level (Router.config self))
      /\ (Router.u_log_file upd = None ->
            Router.log_file (Router.config self')
            = Router.log_file (Router.config self))
  | (self', lg', Raise e) =>
      (forall l, Router.u_log_level upd = Some l ->
         Router.log_level (Router.config self') = level_value l)
      /\ (forall f, Router.u_log_file upd = Some f ->
            Router.log_file (Router.config self') = Some f)
  end.
Proof.
  intros name. unfold Router.update_logger_config.
  destruct upd as [[l|] [f|]]; simpl.
  - destruct (Router.new_StructuredLogger fs _ _ _ _) as [lg' [sl|e]] eqn:Hnew.
    + apply new_StructuredLogger_ok in Hnew as (Hname & Hh & Hl). simpl in *.
      unfold Router.get_logger_config. simpl.
      rewrite LogLevel_of_level_value. simpl.
      repeat split; outcome.
    + simpl. split; outcome.
  - unfold Router.get_logger_config. simpl.
    rewrite LogLevel_of_level_value. simpl.
    repeat split; outcome.
    unfold setLevel. by rewrite getLogger_set_logger.
  - destruct (Router.new_StructuredLogger fs _ _ _ _) as [lg' [sl|e]] eqn:Hnew.
    + apply new_StructuredLogger_ok in Hnew as (Hname & Hh & Hl). simpl in *.
      unfold Router.get_logger_config. simpl.
      destruct (LogLevel_of_value (Router.log_level (Router.config self)))
        as [l0|]; simpl; repeat split; outcome.
    + simpl. split; outcome.
  - unfold Router.get_logger_config. simpl.
    destruct (LogLevel_of_value (Router.log_level (Router.config self)))
      as [l0|]; simpl; repeat split; outcome.
Qed.

(** ** The [json] module: reading back what was written *)





(** *** Integers *)









(** *** String literals *)




(** *** Values *)
























(** *** From the value to the document and back *)

Lemma mem_str_In (k : string) (l : list string) :
  mem_str k l = true <-> In k l.
Proof.
  unfold mem_str. rewrite existsb_exists. split.
  - intros (x & Hin & Heq). apply String.eqb_eq in Heq. by subst.
  - intros Hin. exists k. split; [done | apply String.eqb_refl].
Qed.

Lemma mem_str_not_In (k : string) (l : list string) :
  mem_str k l = false <-> ~ In k l.
Proof.
  rewrite <- mem_str_In. destruct (mem_str k l); split; try done;
    intros H; by destruct H.
Qed.














(** ** [logger_repository.py]: [create], then [get_by_id] *)

Lemma id_below_next (t : Repository.Table) (e : Repository.LogEntry) (j : Z) :
  In e t -> Repository.id e = Some j -> j < Repository.next_id t.
Proof.
  unfold Repository.next_id. induction t as [|x t IH]; simpl; [done|].
  intros [->|Hin] Hj.
  - rewrite Hj. simpl. lia.
  - specialize (IH Hin Hj). lia.
Qed.


Lemma create_ok (t t' : Repository.Table) (d : Repository.LogEntryCreate)
    (ts tc : datetime) (s : Repository.Storage) (row : Repository.LogEntry) :
  Repository.create t d ts tc s = (t', Ok row) ->
  t' = t ++ [row]
  /\ Repository.id row = Some (Repository.next_id t)
  /\ Repository.message row = Repository.c_message d
  /\ Repository.level row = Repository.c_level d
  /\ (if dict_truthy (Repository.c_extra_data d)
      then exists blob,
             dumps true false (PDict (default [] (Repository.c_extra_data d)))
               = Ok blob
             /\ Repository.extra_data row = Some blob
      else Repository.extra_data row = None).
Proof.
  unfold Repository.create.
  destruct (dict_truthy (Repository.c_extra_data d)).
  - destruct (dumps true false _) as [blob|e]; simpl; [|discriminate].
    destruct (Repository.fault s 0); [discriminate|].
    destruct (Repository.fault s 1); [discriminate|].
    intros [= <- <-]. simpl. repeat split; eauto.
  - destruct (Repository.fault s 0); [discriminate|].
    destruct (Repository.fault s 1); [discriminate|].
    intros [= <- <-]. simpl. by repeat split.
Qed.




(** ** The formatters *)

Lemma dict_get_set_eq (k : string) (v : pyval) (d : pydict) :
  dict_get k (dict_set k v d) = Some v.
Proof.
  induction d as [|[k' v'] d IH]; simpl.
  - by rewrite String.eqb_refl.
  - destruct (String.eqb_spec k k') as [->|Hne]; simpl.
    + by rewrite String.eqb_refl.
    + apply String.eqb_neq in Hne. by rewrite Hne.
Qed.

Lemma dict_get_set_ne (k k' : string) (v : pyval) (d : pydict) :
  k <> k' -> dict_get k (dict_set k' v d) = dict_get k d.
Proof.
  intros Hne. induction d as [|[k2 v2] d IH]; simpl.
  - apply String.eqb_neq in Hne. by rewrite Hne.
  - destruct (String.eqb_spec k' k2) as [->|Hne2]; simpl.
    + apply String.eqb_neq in Hne. by rewrite Hne.
    + by rewrite IH.
Qed.

Lemma dict_get_update_other (k : string) (e d : pydict) :
  ~ In k (map fst e) -> dict_get k (dict_update d e) = dict_get k d.
Proof.
  unfold dict_update. revert d.
  induction e as [|[k' v'] e IH]; intros d Hk; simpl in *; [done|].
  rewrite IH by tauto. apply dict_get_set_ne. intros ->. tauto.
Qed.

(** After [d.update(e)], a key of [e] holds the value [e] gives it. *)
Lemma dict_get_update (k : string) (v : pyval) (e d : pydict) :
  distinct (map fst e) = true ->
  dict_get k e = Some v ->
  dict_get k (dict_update d e) = Some v.
Proof.
  revert d. induction e as [|[k' v'] e IH]; intros d Hdis Hget; simpl in *;
    [done|].
  apply andb_true_iff in Hdis as [Hk' Hdis].
  apply negb_true_iff, mem_str_not_In in Hk'.
  destruct (String.eqb_spec k k') as [->|Hne].
  - injection Hget as ->.
    change (dict_get k' (dict_update (dict_set k' v d) e) = Some v).
    by rewrite dict_get_update_other, dict_get_set_eq.
  - by apply (IH (dict_set k' v' d)).
Qed.



(** C2 on the code: the two JSON formatters read the clock, so the same
    record rendered at two instants gives two texts; and they raise on a
    record one of whose fields has no JSON encoding. *)
Theorem format_reads_clock_and_raises :
  Service.format noon boom_record <> Service.format later boom_record
  /\ Router.format noon boom_record <> Router.format later boom_record
  /\ Service.format noon dated_record
     = Raise (TypeError "Object is not JSON serializable")
  /\ Router.format noon dated_record
     = Raise (TypeError "Object is not JSON serializable")
  /\ is_ok (Models.format dated_record) = true.
Proof.
  split; [vm_compute; discriminate|]. split; [vm_compute; discriminate|].
  repeat split; vm_compute; reflexivity.
Qed.

(** C3 on the code: a field named like a key of the entry takes the place of
    that key's value, in both JSON formatters; the fixed keys are among the
    keys this holds for. *)
Theorem field_overrides_key (now : datetime) (record : LogRecord)
    (fields : pydict) (k : string) (v : pyval) :
  dict_get "extra_data" (r_extra record) = Some (PDict fields) ->
  distinct (map fst fields) = true ->
  dict_get k fields = Some v ->
  r_exc_info record = None ->
  exists e,
    Service.log_entry now record = Ok e
    /\ Router.log_entry now record = Ok e
    /\ dict_get k e = Some v
    /\ Service.format now record = dumps false false (PDict e)
    /\ Router.format now record = dumps true false (PDict e).
Proof.
  intros Hx Hdis Hget Hexc.
  unfold Service.format, Router.format, Service.log_entry, Router.log_entry.
  rewrite Hx, Hexc. simpl. eexists. repeat split.
  by apply dict_get_update.
Qed.

Lemma field_overrides_key_witness :
  r_msg forged_record = "boom"
  /\ r_levelname forged_record = "ERROR"
  /\ exists e,
       Service.log_entry noon forged_record = Ok e
       /\ Router.log_entry noon forged_record = Ok e
       /\ dict_get "message" e = Some (PStr "all is well")
       /\ dict_get "level" e = Some (PStr "INFO").
Proof.
  split; [reflexivity|]. split; [reflexivity|].
  destruct (field_overrides_key noon forged_record forged_fields "message"
              (PStr "all is well") eq_refl eq_refl eq_refl eq_refl)
    as (e & Hs & Hr & Hm & _).
  exists e. repeat split; try assumption.
  vm_compute in Hs. injection Hs as <-. reflexivity.
Defined.

(** ** Listing *)

(** C4 on the code: [get_log_entries] of the router variant returns the
    entries in the order of their creation, the oldest first. *)
Theorem get_log_entries_oldest_first :
  map Router.e_message (Router.get_log_entries after_second everything)
    = ["first"; "second"]
  /\ map Router.timestamp (Router.get_log_entries after_second everything)
     = [noon; later]
  /\ dt_key noon < dt_key later.
Proof. repeat split; vm_compute; reflexivity. Qed.

Lemma py_slice_window {A : Type} (a n : Z) (l : list A) :
  0 <= a -> 0 <= n ->
  py_slice a (a + n) l = take (Z.to_nat n) (drop (Z.to_nat a) l).
Proof.
  intros Ha Hn. unfold py_slice, clamp_index.
  destruct (Z.ltb_spec a 0); [lia|]. destruct (Z.ltb_spec (a + n) 0); [lia|].
  destruct (Z.le_gt_cases (Z.of_nat (length l)) a) as [Hge|Hlt].
  - rewrite !drop_ge by lia. by rewrite !take_nil.
  - rewrite (Z.min_l a) by lia.
    destruct (Z.le_gt_cases (a + n) (Z.of_nat (length l))) as [Hin|Hout].
    + rewrite Z.min_l by lia. f_equal. lia.
    + rewrite Z.min_r by lia.
      rewrite !take_ge; [done | rewrite length_drop; lia | rewrite length_drop; lia].
Qed.

(** The in-memory listing, on parameters that passed the validation of
    [LogQueryParams]: the entries that match, without the first [offset] of
    them, cut at [limit]; so at most [limit] entries.  The order is the
    order of creation. *)
Theorem get_log_entries_window (self : Router.LoggerService)
    (lvl : option LogLevel) (st en : option datetime) (lim off : Z)
    (q : Router.LogQueryParams) :
  Router.new_LogQueryParams lvl st en lim off = Ok q ->
  Router.get_log_entries self q
    = take (Z.to_nat lim)
        (drop (Z.to_nat off) (Router.matching q (Router.log_entries self)))
  /\ Z.of_nat (length (Router.get_log_entries self q)) <= lim.
Proof.
  unfold Router.new_LogQueryParams.
  destruct (Z.leb_spec 1 lim); simpl; [|discriminate].
  destruct (Z.leb_spec lim 1000); simpl; [|discriminate].
  destruct (Z.leb_spec 0 off); simpl; [|discriminate].
  intros [= <-]. unfold Router.get_log_entries. simpl.
  rewrite py_slice_window by lia. split; [done|].
  rewrite length_take. lia.
Qed.

Lemma get_log_entries_window_witness :
  Router.get_log_entries after_second
    {| Router.q_level := Some ERROR; Router.start_time := None;
       Router.end_time := None; Router.limit := 1; Router.offset := 1 |}
  = take 1 (drop 1 (Router.log_entries after_second)).
Proof.
  destruct (get_log_entries_window after_second (Some ERROR) None None 1 1 _
              eq_refl) as [H _].
  rewrite H. vm_compute. reflexivity.
Defined.

(** [delete_log_entries] returns the number of entries held and leaves
    none: the listing that follows is empty. *)
Theorem delete_log_entries_clears (self : Router.LoggerService)
    (q : Router.LogQueryParams) :
  (Router.delete_log_entries self).2
    = Z.of_nat (length (Router.log_entries self))
  /\ Router.get_log_entries (Router.delete_log_entries self).1 q = [].
Proof.
  split; [reflexivity|]. unfold Router.get_log_entries, Router.matching. simpl.
  destruct (Router.q_level q), (Router.start_time q), (Router.end_time q);
    simpl; unfold py_slice; rewrite drop_nil; apply take_nil.
Qed.

(** *** The repository's listing *)

Lemma insert_desc_Forall (P : Repository.LogEntry -> Prop)
    (e : Repository.LogEntry) (l : list Repository.LogEntry) :
  P e -> Forall P l -> Forall P (Repository.insert_desc e l).
Proof.
  intros He. induction 1 as [|x l Hx Hl IH]; simpl; [by repeat constructor|].
  destruct (dt_key (Repository.timestamp x) <=? dt_key (Repository.timestamp e));
    by repeat constructor.
Qed.

Lemma insert_desc_sorted (e : Repository.LogEntry)
    (l : list Repository.LogEntry) :
  StronglySorted later_first l ->
  StronglySorted later_first (Repository.insert_desc e l).
Proof.
  induction 1 as [|x l Hs IH Hx]; simpl; [by repeat constructor|].
  destruct (Z.leb_spec (dt_key (Repository.timestamp x))
              (dt_key (Repository.timestamp e))) as [Hle|Hgt].
  - constructor; [by constructor|]. constructor; [unfold later_first; lia|].
    eapply Forall_impl; [exact Hx|]. unfold later_first. intros y Hy. lia.
  - constructor; [exact IH|]. apply insert_desc_Forall; [|exact Hx].
    unfold later_first. lia.
Qed.

Lemma insert_desc_perm (e : Repository.LogEntry)
    (l : list Repository.LogEntry) :
  Repository.insert_desc e l ≡ₚ e :: l.
Proof.
  induction l as [|x l IH]; simpl; [done|].
  destruct (dt_key (Repository.timestamp x) <=? dt_key (Repository.timestamp e));
    [done|]. rewrite IH. apply Permutation_swap.
Qed.

(** Among the rows of one timestamp, a row that is inserted comes first. *)
Lemma insert_desc_at_time (k : Z) (e : Repository.LogEntry)
    (l : list Repository.LogEntry) :
  List.filter (at_time k) (Repository.insert_desc e l)
  = List.filter (at_time k) (e :: l).
Proof.
  induction l as [|x l IH]; [done|].
  change (Repository.insert_desc e (x :: l))
    with (if dt_key (Repository.timestamp x) <=? dt_key (Repository.timestamp e)
          then e :: x :: l else x :: Repository.insert_desc e l).
  destruct (Z.leb_spec (dt_key (Repository.timestamp x))
              (dt_key (Repository.timestamp e))) as [Hle|Hgt]; [done|].
  simpl in *. rewrite IH. unfold at_time.
  destruct (Z.eqb_spec (dt_key (Repository.timestamp x)) k) as [Hx|Hx];
    destruct (Z.eqb_spec (dt_key (Repository.timestamp e)) k) as [He|He];
    try done. lia.
Qed.

Lemma order_by_sorted (t : Repository.Table) :
  StronglySorted later_first (Repository.order_by_timestamp_desc t).
Proof.
  induction t as [|x t IH]; simpl; [constructor | by apply insert_desc_sorted].
Qed.

Lemma order_by_perm (t : Repository.Table) :
  Repository.order_by_timestamp_desc t ≡ₚ t.
Proof.
  induction t as [|x t IH]; simpl; [done|]. by rewrite insert_desc_perm, IH.
Qed.

Lemma offset_limit_sorted (skip limit : Z) (l : list Repository.LogEntry) :
  StronglySorted later_first l ->
  StronglySorted later_first (Repository.offset_limit skip limit l).
Proof.
  intros Hs. unfold Repository.offset_limit.
  assert (Hd : StronglySorted later_first (drop (Z.to_nat skip) l)).
  { rewrite <- (take_drop (Z.to_nat skip) l) in Hs.
    by apply StronglySorted_app_1_r in Hs. }
  destruct (limit <? 0); [done|].
  rewrite <- (take_drop (Z.to_nat limit) (drop (Z.to_nat skip) l)) in Hd.
  by apply StronglySorted_app_1_l in Hd.
Qed.

(** The rows of one timestamp keep the order of the table. *)
Lemma order_by_at_time (k : Z) (t : Repository.Table) :
  List.filter (at_time k) (Repository.order_by_timestamp_desc t)
  = List.filter (at_time k) t.
Proof.
  induction t as [|x t IH]; [done|].
  change (Repository.order_by_timestamp_desc (x :: t))
    with (Repository.insert_desc x (Repository.order_by_timestamp_desc t)).
  rewrite insert_desc_at_time. simpl. by rewrite IH.
Qed.

(** The repository's listings, on a healthy storage and with [skip] and
    [limit] not negative.  [get_all] returns the rows of the table, and
    [get_by_level] the rows of the level, in the order [ORDER BY timestamp
    DESC] gives them, without the first [skip] of them, cut at [limit].
    That order holds the same rows, the later first, the rows of one
    timestamp as the table has them.  So a listing has at most [limit]
    rows, the most recent first, and [get_by_level] rows of the level
    only. *)
Theorem repository_listing_ordered (t : Repository.Table) (lvl : LogLevel)
    (skip limit : Z) :
  0 <= skip -> 0 <= limit ->
  (forall u,
      Repository.order_by_timestamp_desc u ≡ₚ u
      /\ StronglySorted later_first (Repository.order_by_timestamp_desc u)
      /\ forall k, List.filter (at_time k) (Repository.order_by_timestamp_desc u)
                   = List.filter (at_time k) u)
  /\ (exists rows,
        Repository.get_all t skip limit Repository.Healthy = Ok rows
        /\ rows = take (Z.to_nat limit)
                    (drop (Z.to_nat skip) (Repository.order_by_timestamp_desc t))
        /\ StronglySorted later_first rows
        /\ Z.of_nat (length rows) <= limit)
  /\ (exists rows,
        Repository.get_by_level t lvl skip limit Repository.Healthy = Ok rows
        /\ rows = take (Z.to_nat limit)
                    (drop (Z.to_nat skip)
                       (Repository.order_by_timestamp_desc (of_level lvl t)))
        /\ (forall e, In e (of_level lvl t)
                      <-> In e t /\ Repository.level e = lvl)
        /\ StronglySorted later_first rows
        /\ Forall (fun e => Repository.level e = lvl) rows
        /\ Z.of_nat (length rows) <= limit).
Proof.
  intros Hskip Hlimit.
  assert (Hcut : forall l, Repository.offset_limit skip limit l
                           = take (Z.to_nat limit) (drop (Z.to_nat skip) l)).
  { intros l. unfold Repository.offset_limit.
    by destruct (Z.ltb_spec limit 0); [lia|]. }
  assert (Hlevel : forall e, In e (of_level lvl t)
                             <-> In e t /\ Repository.level e = lvl).
  { intros e. unfold of_level. rewrite filter_In.
    split; intros [Hin He]; (split; [done|]).
    - by destruct (Repository.level e), lvl.
    - rewrite He. by destruct lvl. }
  split; [|split].
  - intros u. split; [apply order_by_perm|]. split; [apply order_by_sorted|].
    intros k. apply order_by_at_time.
  - eexists. split; [reflexivity|]. split; [apply Hcut|].
    split; [apply offset_limit_sorted, order_by_sorted|].
    rewrite Hcut, length_take. lia.
  - eexists. split; [reflexivity|]. split; [apply Hcut|].
    split; [exact Hlevel|].
    split; [apply offset_limit_sorted, order_by_sorted|]. split.
    + rewrite Hcut. apply Forall_take, Forall_drop.
      rewrite order_by_perm. apply Forall_forall. intros e He.
      apply list_elem_of_In in He. by apply Hlevel in He as [_ He].
    + rewrite Hcut, length_take. lia.
Qed.

Lemma repository_listing_ordered_witness :
  Repository.get_all [a_row; b_row; c_row] 0 2 Repository.Healthy
    = Ok [b_row; a_row]
  /\ Repository.get_by_level [a_row; b_row; c_row] ERROR 1 5 Repository.Healthy
     = Ok [c_row].
Proof.
  destruct (repository_listing_ordered [a_row; b_row; c_row] ERROR 0 2
              ltac:(lia) ltac:(lia)) as (_ & (rows & H & -> & _) & _).
  destruct (repository_listing_ordered [a_row; b_row; c_row] ERROR 1 5
              ltac:(lia) ltac:(lia)) as (_ & _ & (rows & H' & -> & _)).
  split; [by rewrite H | by rewrite H'].
Defined.

(** ** More on emission *)

(** [LoggerService.get_logger] of the repository variant keeps no registry:
    each call builds a wrapper, and the wrappers of one name share the
    logger of the logging module.  A second call finds that logger
    configured and leaves it alone: no second handler, the same level. *)
Theorem get_logger_again (name : string) (lg : Logging) :
  Repository.get_logger name (Repository.get_logger name lg).2
  = Repository.get_logger name lg.
Proof.
  unfold Repository.get_logger, Repository.new_StructuredLogger. simpl.
  f_equal. unfold Repository._configure_logger.
  destruct (lg_handlers (getLogger name lg)) as [|h hs] eqn:Hh.
  - unfold setLevel, addHandler. rewrite !getLogger_set_logger. simpl.
    by rewrite Hh.
  - by rewrite Hh.
Qed.

(** ** The registry of [LoggerFactory], and [get_logger] of the repository *)

Lemma configure_logger_again (name : string) (lg : Logging) :
  Repository._configure_logger name (Repository._configure_logger name lg)
  = Repository._configure_logger name lg.
Proof.
  unfold Repository._configure_logger.
  destruct (lg_handlers (getLogger name lg)) as [|h hs] eqn:Hh.
  - unfold setLevel, addHandler. rewrite !getLogger_set_logger. simpl.
    by rewrite Hh.
  - by rewrite Hh.
Qed.

Lemma setup_logger_returns (fs : string -> bool) (name : string)
    (config : pydict) (lg : Logging) :
  is_ok (Service._setup_logger fs name config lg).2
  = match lg_handlers (getLogger name lg) with
    | [] => loadable fs config
    | _ :: _ => true
    end.
Proof.
  unfold Service._setup_logger, loadable.
  destruct (lg_handlers (getLogger name lg)); [|done].
  destruct (checkLevel _); [|done]. simpl.
  destruct (default PNone (dict_get "file_path" config)) as
    [|b|z|p|l|l|d|o|e]; simpl; try done.
  - by destruct b.
  - by destruct (negb (z =? 0)).
  - destruct (str_truthy p); [|done]. simpl. unfold FileHandler.
    by destruct (fs p).
  - by destruct l.
  - by destruct l.
  - by destruct d.
Qed.

Lemma create_logger_returns (fs : string -> bool) (n : string)
    (config : option pydict) (st : Service.Factory) :
  is_ok (Service.create_logger fs n config st).2
  = match Service._instances st !! n with
    | Some _ => true
    | None =>
        match lg_handlers (getLogger n (Service.logging st)) with
        | [] => loadable fs (default [] config)
        | _ :: _ => true
        end
    end.
Proof.
  unfold Service.create_logger.
  destruct (Service._instances st !! n); [done|].
  rewrite <- setup_logger_returns. unfold Service.new_LoggerService.
  destruct (Service._setup_logger fs n (default [] config) (Service.logging st))
    as [lg1 [[]|e]]; done.
Qed.

Lemma create_logger_first (fs : string -> bool) (n : string)
    (config : option pydict) (st : Service.Factory) :
  Service._instances st !! n = None ->
  match Service.create_logger fs n config st with
  | (st', Ok r) =>
      r = length (Service.heap st)
      /\ Service.heap st'
         = Service.heap st
           ++ [{| Service.name := n; Service.config := default [] config |}]
      /\ Service._instances st' = <[n := r]> (Service._instances st)
  | (st', Raise _) =>
      Service._instances st' = Service._instances st
      /\ Service.heap st' = Service.heap st
  end.
Proof.
  intros Hn. unfold Service.create_logger. rewrite Hn.
  unfold Service.new_LoggerService.
  destruct (Service._setup_logger fs n (default [] config) (Service.logging st))
    as [lg1 [[]|e]]; done.
Qed.

(** C7 on the code.  On [LoggerFactory], whatever sequence of
    [create_logger] calls was run on the class as loaded: (1) two calls with
    the same name that return, return the same instance; (2) the objects
    built hold at most one instance per name; (3) a further call with a
    registered name returns the registered instance and changes nothing,
    whatever configuration it passes; (4) a further call with a name that is
    not registered either returns a new instance, of that name and with its
    own configuration, which it registers, or raises and registers nothing;
    (5) it returns exactly when the logger of the name has handlers already
    or the configuration can be carried out, so always without a
    configuration.  On [LoggerService.get_logger] of
    [logger_repository.py]: (6) two calls with one name build two objects:
    the second call does not return the instance of the first, though both
    wrap the one logger of the logging module, which the second call leaves
    as it is. *)
Theorem one_instance_per_name (fs : string -> bool) (lg : Logging)
    (calls : list (string * option pydict)) :
  let st := (Service.run fs calls (Service.fresh lg)).1 in
  let outs := (Service.run fs calls (Service.fresh lg)).2 in
  (forall i j n ci cj ri rj,
      calls !! i = Some (n, ci) -> calls !! j = Some (n, cj) ->
      outs !! i = Some (Ok ri) -> outs !! j = Some (Ok rj) -> ri = rj)
  /\ (forall r1 r2 o1 o2,
        Service.heap st !! r1 = Some o1 -> Service.heap st !! r2 = Some o2 ->
        Service.name o1 = Service.name o2 -> r1 = r2)
  /\ (forall n r config,
        Service.get_logger n st = Some r ->
        Service.create_logger fs n config st = (st, Ok r))
  /\ (forall n config,
        Service.get_logger n st = None ->
        match Service.create_logger fs n config st with
        | (st', Ok r) =>
            r = length (Service.heap st)
            /\ Service.heap st'
               = Service.heap st
                 ++ [{| Service.name := n;
                        Service.config := default [] config |}]
            /\ Service._instances st' = <[n := r]> (Service._instances st)
        | (st', Raise _) =>
            Service._instances st' = Service._instances st
            /\ Service.heap st' = Service.heap st
        end)
  /\ (forall n config,
        is_ok (Service.create_logger fs n config st).2
        = match Service.get_logger n st with
          | Some _ => true
          | None =>
              match lg_handlers (getLogger n (Service.logging st)) with
              | [] => loadable fs (default [] config)
              | _ :: _ => true
              end
          end)
  /\ (forall n, is_ok (Service.create_logger fs n None st).2 = true)
  /\ (forall name objects,
        let first := Repository.get_logger_object name objects in
        let second := Repository.get_logger_object name first.1 in
        first.2 <> second.2
        /\ Repository.allocated second.1 !! first.2
           = Some {| Repository.sl_name := name |}
        /\ Repository.allocated second.1 !! second.2
           = Some {| Repository.sl_name := name |}
        /\ Repository.logging second.1 = Repository.logging first.1).
Proof.
  intros st outs. split; [|split; [|split; [|split; [|split; [|split]]]]].
  - intros i j n ci cj ri rj. apply run_same_name.
  - pose proof (run_registered fs calls _ (fresh_registered lg)) as [_ I2].
    intros r1 r2 o1 o2 H1 H2 Hn. apply I2 in H1, H2. fold st in H1, H2.
    rewrite Hn in H1. congruence.
  - intros n r config H. by apply create_logger_hit.
  - intros n config. apply create_logger_first.
  - intros n config. apply create_logger_returns.
  - intros n. rewrite create_logger_returns.
    destruct (Service._instances st !! n); [done|].
    by destruct (lg_handlers _).
  - intros name objects first second. subst first second.
    unfold Repository.get_logger_object at 1 2 3 4 5.
    unfold Repository.get_logger_object.
    unfold Repository.get_logger, Repository.new_StructuredLogger.
    cbn [fst snd Repository.allocated Repository.logging].
    rewrite length_app. cbn [length].
    split; [lia|]. split; [|split].
    + rewrite lookup_app_l by (rewrite length_app; simpl; lia).
      rewrite lookup_app_r by lia. by rewrite Nat.sub_diag.
    + rewrite lookup_app_r by (rewrite length_app; simpl; lia).
      rewrite length_app. cbn [length].
      by replace (length (Repository.allocated objects) + 1
                  - (length (Repository.allocated objects) + 1))%nat
        with 0%nat by lia.
    + apply configure_logger_again.
Qed.

(** An emission whose extra data names an attribute of the record, on a
    logger enabled for the level, raises [KeyError] to the caller before any
    handler or the repository is reached. *)
Theorem emit_reserved_key_raises (lvl : LogLevel)
    (self : Repository.StructuredLogger) (message : string)
    (extra : pydict) (caller : option Frame) (i : Repository.Instants)
    (s : Repository.Storage) (lg : Logging) (t : Repository.Table) (k : string) :
  isEnabledFor (Repository.sl_name self) (levelno lvl) lg = true ->
  check_extra extra = Raise (KeyError k) ->
  Repository.emit lvl self message (Some extra) caller i s lg t
  = (lg, t, Raise (KeyError k)).
Proof.
  intros Hen Hk. unfold Repository.emit, Logger_log, makeRecord. simpl.
  by rewrite Hen, Hk.
Qed.

Lemma emit_reserved_key_raises_witness :
  Repository.info svc "hello" (Some [("message", PStr "again")])
    (Some app_frame) instants Repository.Healthy svc_logging []
  = (svc_logging, [], Raise (KeyError "message")).
Proof.
  apply (emit_reserved_key_raises INFO svc "hello" [("message", PStr "again")]
           (Some app_frame) instants Repository.Healthy svc_logging []
           "message").
  - vm_compute. reflexivity.
  - reflexivity.
Defined.

(** ** [logger_repository.py]: the table under [create], [update], [delete] *)

Lemma has_id_true (i : Z) (e : Repository.LogEntry) :
  Repository.has_id i e = true <-> Repository.id e = Some i.
Proof.
  unfold Repository.has_id. destruct (Repository.id e) as [j|]; [|done].
  rewrite Z.eqb_eq. split; [by intros -> | by intros [= ->]].
Qed.

Lemma patched_id u ex now e e' :
  Repository.patched u ex now e = Some e' ->
  Repository.id e' = Repository.id e
  /\ Repository.timestamp e' = Repository.timestamp e
  /\ Repository.created_at e' = Repository.created_at e
  /\ Repository.updated_at e' = Some now.
Proof.
  unfold Repository.patched.
  destruct (Repository.u_level u) as [[?|]|],
           (Repository.u_message u) as [[?|]|],
           ex as [[?|?]|]; intros [= <-]; done.
Qed.

Lemma map_id_store_row (i : Z) (e' : Repository.LogEntry) (t : Repository.Table) :
  Repository.id e' = Some i ->
  map Repository.id (Repository.store_row i e' t) = map Repository.id t.
Proof.
  intros He'. unfold Repository.store_row. induction t as [|x t IH]; [done|].
  simpl. rewrite IH. f_equal.
  destruct (Repository.has_id i x) eqn:Hx; [|done].
  apply has_id_true in Hx. congruence.
Qed.

Lemma store_row_ids_ok (i : Z) (e' : Repository.LogEntry) (t : Repository.Table) :
  Repository.id e' = Some i -> ids_ok t -> ids_ok (Repository.store_row i e' t).
Proof.
  intros He' [Hnd Hsome]. split; [by rewrite map_id_store_row|].
  unfold Repository.store_row. apply Forall_fmap.
  eapply Forall_impl; [exact Hsome|]. intros x Hx. simpl.
  destruct (Repository.has_id i x); [by rewrite He' | done].
Qed.

Lemma filter_ids_ok (f : Repository.LogEntry -> bool) (t : Repository.Table) :
  ids_ok t -> ids_ok (List.filter f t).
Proof.
  intros [Hnd Hsome]. split.
  - induction t as [|x t IH]; simpl in *; [done|].
    apply NoDup_cons in Hnd as [Hx Hnd]. apply Forall_cons in Hsome as [_ Hs].
    destruct (f x); [|by apply IH]. simpl. apply NoDup_cons. split; [|by apply IH].
    intros Hin. apply Hx. apply list_elem_of_fmap in Hin as (y & -> & Hy).
    apply list_elem_of_fmap. exists y. split; [done|].
    apply list_elem_of_In. apply list_elem_of_In, filter_In in Hy. tauto.
  - apply Forall_forall. intros x Hx.
    apply list_elem_of_In, filter_In in Hx as [Hx _].
    rewrite Forall_forall in Hsome. by apply Hsome, list_elem_of_In.
Qed.

Lemma append_ids_ok (t : Repository.Table) (row : Repository.LogEntry) :
  Repository.id row = Some (Repository.next_id t) ->
  ids_ok t -> ids_ok (t ++ [row]).
Proof.
  intros Hrow [Hnd Hsome]. split.
  - rewrite map_app. apply NoDup_app. split; [done|]. split.
    + intros x Hx Hin. simpl in Hin. apply list_elem_of_singleton in Hin as ->.
      apply list_elem_of_fmap in Hx as (y & Hy & Hin).
      rewrite Hrow in Hy. symmetry in Hy.
      apply list_elem_of_In in Hin.
      pose proof (id_below_next t y _ Hin Hy). lia.
    + simpl. apply NoDup_singleton.
  - apply Forall_app. split; [done|]. apply Forall_singleton. by rewrite Hrow.
Qed.

(** Whatever the health of the storage, [create], [update] and [delete]
    leave a table in which every row has a key and no two rows share one. *)
Theorem table_keys_invariant (t : Repository.Table) :
  ids_ok t ->
  (forall d ts tc s, ids_ok (Repository.create t d ts tc s).1)
  /\ (forall i u now s, ids_ok (Repository.update t i u now s).1)
  /\ (forall i s, ids_ok (Repository.delete t i s).1).
Proof.
  intros Hok. split; [|split].
  - intros d ts tc s. unfold Repository.create.
    destruct (if dict_truthy _ then _ else _) as [j|e]; [|done].
    destruct (Repository.fault s 0); [done|].
    destruct (Repository.fault s 1); simpl; by apply append_ids_ok.
  - intros i u now s. unfold Repository.update, Repository.get_by_id.
    destruct (Repository.fault s 0); [done|].
    destruct (List.find (Repository.has_id i) t) as [e|] eqn:Hf; [|done].
    destruct (Repository.patch_extra _) as [ex|]; [|done].
    destruct (Repository.patched u ex now e) as [e'|] eqn:Hp;
      destruct (Repository.fault s 1); try done.
    apply patched_id in Hp as (Hid & _). apply find_has_id, has_id_true in Hf.
    destruct (Repository.fault s 2); simpl; apply store_row_ids_ok; congruence.
  - intros i s. unfold Repository.delete, Repository.get_by_id.
    destruct (Repository.fault s 0); [done|].
    destruct (List.find (Repository.has_id i) t); [|done].
    destruct (Repository.fault s 1); [done|]. simpl. by apply filter_ids_ok.
Qed.

Lemma table_keys_invariant_witness :
  ids_ok [a_row; b_row]
  /\ ids_ok (Repository.delete [a_row; b_row] 1 Repository.Healthy).1.
Proof.
  assert (H : ids_ok [a_row; b_row]).
  { split; [|by repeat constructor; eexists].
    apply NoDup_cons. split; [|apply NoDup_singleton].
    intros Hin. apply list_elem_of_singleton in Hin. discriminate. }
  split; [exact H|].
  destruct (table_keys_invariant [a_row; b_row] H) as (_ & _ & Hd). apply Hd.
Defined.

Lemma find_other_store_row (i j : Z) (e' : Repository.LogEntry)
    (t : Repository.Table) :
  i <> j -> Repository.id e' = Some i ->
  List.find (Repository.has_id j) (Repository.store_row i e' t)
  = List.find (Repository.has_id j) t.
Proof.
  intros Hne He'. unfold Repository.store_row.
  induction t as [|x t IH]; [done|]. simpl.
  destruct (Repository.has_id i x) eqn:Hx.
  - apply has_id_true in Hx.
    assert (Repository.has_id j e' = false) as ->.
    { destruct (Repository.has_id j e') eqn:E; [|done].
      apply has_id_true in E. congruence. }
    assert (Repository.has_id j x = false) as ->; [|done].
    destruct (Repository.has_id j x) eqn:E; [|done].
    apply has_id_true in E. congruence.
  - by rewrite IH.
Qed.

Lemma find_filter_other (i j : Z) (t : Repository.Table) :
  i <> j ->
  List.find (Repository.has_id j)
    (List.filter (fun x => negb (Repository.has_id i x)) t)
  = List.find (Repository.has_id j) t.
Proof.
  intros Hne. induction t as [|x t IH]; [done|]. simpl.
  destruct (Repository.has_id i x) eqn:Hx; simpl.
  - apply has_id_true in Hx.
    assert (Repository.has_id j x = false) as ->; [|done].
    destruct (Repository.has_id j x) eqn:E; [|done].
    apply has_id_true in E. congruence.
  - by rewrite IH.
Qed.

Lemma find_filter_gone (i : Z) (t : Repository.Table) :
  List.find (Repository.has_id i)
    (List.filter (fun x => negb (Repository.has_id i x)) t) = None.
Proof.
  induction t as [|x t IH]; [done|]. simpl.
  destruct (Repository.has_id i x) eqn:Hx; simpl; [done|]. by rewrite Hx.
Qed.

(** [delete] on a healthy storage: for a key the table does not hold it
    answers [False] and changes nothing; for a key it holds it answers
    [True], the key is no longer found, and every other key is found as
    before. *)
Theorem delete_outcomes (t : Repository.Table) (i : Z) :
  match Repository.get_by_id t i Repository.Healthy with
  | Ok None =>
      Repository.delete t i Repository.Healthy = (t, Ok false)
  | Ok (Some _) =>
      (Repository.delete t i Repository.Healthy).2 = Ok true
      /\ Repository.get_by_id (Repository.delete t i Repository.Healthy).1 i
           Repository.Healthy = Ok None
      /\ forall j, j <> i ->
           Repository.get_by_id (Repository.delete t i Repository.Healthy).1 j
             Repository.Healthy
           = Repository.get_by_id t j Repository.Healthy
  | Raise _ => False
  end.
Proof.
  unfold Repository.delete, Repository.get_by_id. simpl.
  destruct (List.find (Repository.has_id i) t) as [e|]; [|done]. simpl.
  split; [done|]. split; [by rewrite find_filter_gone|].
  intros j Hne. by rewrite find_filter_other.
Qed.

(** A write that raises leaves the table as it was, unless what failed is
    the refresh that follows a commit: [create] and [update] when the
    failure is not at their refresh, [delete] always. *)
Theorem failed_write_leaves_table (t : Repository.Table)
    (s : Repository.Storage) :
  (forall d ts tc,
      is_ok (Repository.create t d ts tc s).2 = false ->
      Repository.fault s 1 = None ->
      (Repository.create t d ts tc s).1 = t)
  /\ (forall i u now,
        is_ok (Repository.update t i u now s).2 = false ->
        Repository.fault s 2 = None ->
        (Repository.update t i u now s).1 = t)
  /\ (forall i,
        is_ok (Repository.delete t i s).2 = false ->
        (Repository.delete t i s).1 = t).
Proof.
  split; [|split].
  - intros d ts tc. unfold Repository.create.
    destruct (if dict_truthy _ then _ else _) as [j|e]; [|done].
    destruct (Repository.fault s 0); [done|].
    by destruct (Repository.fault s 1).
  - intros i u now. unfold Repository.update.
    destruct (Repository.get_by_id t i s) as [[e|]|]; try done.
    destruct (Repository.patch_extra _) as [ex|]; [|done].
    destruct (Repository.patched u ex now e), (Repository.fault s 1); try done.
    by destruct (Repository.fault s 2).
  - intros i. unfold Repository.delete.
    destruct (Repository.get_by_id t i s) as [[e|]|]; try done.
    by destruct (Repository.fault s 1).
Qed.

(** [update] on a healthy storage, when it returns a row: the row is the
    stored one with each field of the patch that was set, and only those,
    taking the patch's value (the extra data as the text [json.dumps] gives
    for them, or none when they are set to [None]); the key, the timestamp
    and the creation time are kept and [updated_at] is the current time; the
    row is the one found under the key afterwards, and every other key is
    found as before. *)
Theorem update_applies_patch (t t' : Repository.Table) (i : Z)
    (u : Repository.LogEntryUpdate) (now : datetime)
    (e e' : Repository.LogEntry) :
  Repository.get_by_id t i Repository.Healthy = Ok (Some e) ->
  Repository.update t i u now Repository.Healthy = (t', Ok (Some e')) ->
  match Repository.u_level u with
  | Some (Some v) => Repository.level e' = v
  | _ => Repository.level e' = Repository.level e
  end
  /\ match Repository.u_message u with
     | Some (Some v) => Repository.message e' = v
     | _ => Repository.message e' = Repository.message e
     end
  /\ Repository.module e' = default (Repository.module e) (Repository.u_module u)
  /\ Repository.function e'
     = default (Repository.function e) (Repository.u_function u)
  /\ Repository.line_number e'
     = default (Repository.line_number e) (Repository.u_line_number u)
  /\ match Repository.u_extra_data u with
     | None => Repository.extra_data e' = Repository.extra_data e
     | Some None => Repository.extra_data e' = None
     | Some (Some d) =>
         exists blob, dumps true false (PDict d) = Ok blob
                      /\ Repository.extra_data e' = Some blob
     end
  /\ Repository.id e' = Some i
  /\ Repository.timestamp e' = Repository.timestamp e
  /\ Repository.created_at e' = Repository.created_at e
  /\ Repository.updated_at e' = Some now
  /\ Repository.get_by_id t' i Repository.Healthy = Ok (Some e')
  /\ forall j, j <> i ->
       Repository.get_by_id t' j Repository.Healthy
       = Repository.get_by_id t j Repository.Healthy.
Proof.
  intros Hget. unfold Repository.update. rewrite Hget.
  unfold Repository.get_by_id in *. simpl in *. injection Hget as Hfind.
  pose proof (find_has_id _ _ _ Hfind) as Hid. apply has_id_true in Hid.
  destruct (Repository.patch_extra (Repository.u_extra_data u)) as [ex|] eqn:Hex;
    [|discriminate].
  destruct (Repository.patched u ex now e) as [p|] eqn:Hp; [|discriminate].
  intros [= <- <-].
  pose proof (patched_id _ _ _ _ _ Hp) as (Hpid & Hts & Hc & Hu).
  assert (Hp_id : Repository.id p = Some i) by congruence.
  repeat split; try done.
  - unfold Repository.patched in Hp.
    destruct (Repository.u_level u) as [[?|]|],
             (Repository.u_message u) as [[?|]|], ex as [[?|?]|];
      try discriminate; by injection Hp as <-.
  - unfold Repository.patched in Hp.
    destruct (Repository.u_level u) as [[?|]|],
             (Repository.u_message u) as [[?|]|], ex as [[?|?]|];
      try discriminate; by injection Hp as <-.
  - unfold Repository.patched in Hp.
    destruct (Repository.u_level u) as [[?|]|],
             (Repository.u_message u) as [[?|]|], ex as [[?|?]|];
      try discriminate; by injection Hp as <-.
  - unfold Repository.patched in Hp.
    destruct (Repository.u_level u) as [[?|]|],
             (Repository.u_message u) as [[?|]|], ex as [[?|?]|];
      try discriminate; by injection Hp as <-.
  - unfold Repository.patched in Hp.
    destruct (Repository.u_level u) as [[?|]|],
             (Repository.u_message u) as [[?|]|], ex as [[?|?]|];
      try discriminate; by injection Hp as <-.
  - unfold Repository.patch_extra in Hex. unfold Repository.patched in Hp.
    destruct (Repository.u_extra_data u) as [[d|]|].
    + destruct (dict_truthy (Some d)).
      * destruct (dumps true false (PDict d)) as [blob|]; [|discriminate].
        injection Hex as <-. exists blob. split; [done|].
        destruct (Repository.u_level u) as [[?|]|],
                 (Repository.u_message u) as [[?|]|];
          try discriminate; by injection Hp as <-.
      * injection Hex as <-.
        destruct (Repository.u_level u) as [[?|]|],
                 (Repository.u_message u) as [[?|]|]; discriminate.
    + injection Hex as <-.
      destruct (Repository.u_level u) as [[?|]|],
               (Repository.u_message u) as [[?|]|];
        try discriminate; by injection Hp as <-.
    + injection Hex as <-.
      destruct (Repository.u_level u) as [[?|]|],
               (Repository.u_message u) as [[?|]|];
        try discriminate; by injection Hp as <-.
  - f_equal. apply find_store_row with (e := e); [done | by apply has_id_true].
  - intros j Hne. f_equal. apply find_other_store_row; [congruence | done].
Qed.

Lemma update_applies_patch_witness :
  exists t' e',
    Repository.update [a_row; b_row] 1 a_patch later Repository.Healthy
      = (t', Ok (Some e'))
    /\ Repository.level e' = CRITICAL
    /\ Repository.message e' = "boom"
    /\ Repository.module e' = None
    /\ Repository.get_by_id t' 2 Repository.Healthy = Ok (Some b_row).
Proof.
  eexists _, _. split; [vm_compute; reflexivity|].
  destruct (update_applies_patch [a_row; b_row] _ 1 a_patch later a_row _
              eq_refl eq_refl)
    as (Hl & Hm & Hmod & _ & _ & _ & _ & _ & _ & _ & _ & Hframe).
  split; [exact Hl|]. split; [exact Hm|]. split; [exact Hmod|].
  transitivity (Repository.get_by_id [a_row; b_row] 2 Repository.Healthy);
    [apply (Hframe 2); lia | reflexivity].
Defined.

Lemma find_app_other (j : Z) (t : Repository.Table) (row : Repository.LogEntry) :
  Repository.has_id j row = false ->
  List.find (Repository.has_id j) (t ++ [row])
  = List.find (Repository.has_id j) t.
Proof.
  intros Hrow. induction t as [|x t IH]; simpl; [by rewrite Hrow|].
  by destruct (Repository.has_id j x).
Qed.

(** A successful [create] gives the new row a key above every key of the
    table, and leaves every other key found as before. *)
Theorem create_keeps_rows (t t' : Repository.Table)
    (d : Repository.LogEntryCreate) (ts tc : datetime)
    (s : Repository.Storage) (row : Repository.LogEntry) :
  Repository.create t d ts tc s = (t', Ok row) ->
  exists i,
    Repository.id row = Some i
    /\ (forall e j, In e t -> Repository.id e = Some j -> j < i)
    /\ (forall j, j <> i ->
          Repository.get_by_id t' j Repository.Healthy
          = Repository.get_by_id t j Repository.Healthy)
    /\ length t' = S (length t).
Proof.
  intros Hc. apply create_ok in Hc as (-> & Hid & _).
  exists (Repository.next_id t). split; [done|]. split; [|split].
  - intros e j. apply id_below_next.
  - intros j Hne. unfold Repository.get_by_id. simpl. f_equal.
    apply find_app_other. destruct (Repository.has_id j row) eqn:E; [|done].
    apply has_id_true in E. congruence.
  - rewrite length_app. simpl. lia.
Qed.

Lemma create_keeps_rows_witness :
  exists t' row,
    Repository.create [a_row; b_row] (draft_with None) noon noon
      Repository.Healthy = (t', Ok row)
    /\ Repository.id row = Some 3
    /\ Repository.get_by_id t' 1 Repository.Healthy = Ok (Some a_row).
Proof.
  eexists _, _. split; [vm_compute; reflexivity|].
  destruct (create_keeps_rows [a_row; b_row] _ (draft_with None) noon noon
              Repository.Healthy _ eq_refl) as (i & Hi & _ & Hframe & _).
  split; [reflexivity|]. vm_compute in Hi. injection Hi as <-.
  transitivity (Repository.get_by_id [a_row; b_row] 1 Repository.Healthy);
    [apply (Hframe 1); lia | reflexivity].
Defined.

Lemma take_take_drop {A : Type} (a b : nat) (l : list A) :
  take a l ++ take b (drop a l) = take (a + b) l.
Proof.
  revert l. induction a as [|a IH]; intros l; [done|].
  destruct l as [|x l]; simpl; [by rewrite take_nil | by rewrite IH].
Qed.

(** Pages follow one another: on a healthy storage, the first [a] rows
    followed by the page of [b] rows after them are the first [a + b] rows,
    for [get_all] and for [get_by_level]. *)
Theorem pages_compose (t : Repository.Table) (lvl : LogLevel) (a b : Z) :
  0 <= a -> 0 <= b ->
  (exists p q r,
      Repository.get_all t 0 a Repository.Healthy = Ok p
      /\ Repository.get_all t a b Repository.Healthy = Ok q
      /\ Repository.get_all t 0 (a + b) Repository.Healthy = Ok r
      /\ p ++ q = r)
  /\ (exists p q r,
        Repository.get_by_level t lvl 0 a Repository.Healthy = Ok p
        /\ Repository.get_by_level t lvl a b Repository.Healthy = Ok q
        /\ Repository.get_by_level t lvl 0 (a + b) Repository.Healthy = Ok r
        /\ p ++ q = r).
Proof.
  intros Ha Hb.
  assert (Hcut : forall l,
    Repository.offset_limit 0 a l ++ Repository.offset_limit a b l
    = Repository.offset_limit 0 (a + b) l).
  { intros l. unfold Repository.offset_limit.
    destruct (Z.ltb_spec a 0), (Z.ltb_spec b 0), (Z.ltb_spec (a + b) 0);
      try lia.
    simpl. rewrite take_take_drop. f_equal. lia. }
  split; eexists _, _, _; (split; [reflexivity|]);
    (split; [reflexivity|]); (split; [reflexivity|]); apply Hcut.
Qed.

Lemma pages_compose_witness :
  exists p q,
    Repository.get_all [a_row; b_row] 0 1 Repository.Healthy = Ok p
    /\ Repository.get_all [a_row; b_row] 1 1 Repository.Healthy = Ok q
    /\ p ++ q = [b_row; a_row].
Proof.
  destruct (pages_compose [a_row; b_row] ERROR 1 1 ltac:(lia) ltac:(lia))
    as [(p & q & r & Hp & Hq & Hr & Hpq) _].
  exists p, q. split; [exact Hp|]. split; [exact Hq|].
  rewrite Hpq. vm_compute in Hr. by injection Hr as <-.
Defined.

(** ** [logger_repository.py]: an emission the level lets through *)

Lemma callHandlers_reaches name r lg h :
  In h (lg_handlers (getLogger name lg)) ->
  h_level h <= r_levelno r ->
  In (h, r) (emitted (callHandlers name r lg)).
Proof.
  intros Hin Hle. unfold callHandlers. simpl. apply in_app_iff. right.
  apply in_map_iff. exists h. split; [done|].
  match goal with
  | |- context [lg_handlers (getLogger name lg) ++ ?u] => generalize u
  end.
  intros up.
  assert (Hfound : In h (lg_handlers (getLogger name lg) ++ up))
    by (apply in_app_iff; by left).
  destruct (lg_handlers (getLogger name lg) ++ up) as [|x found] eqn:E;
    [done|].
  apply list_elem_of_In. unfold taking. apply list_elem_of_filter.
  split; [done | by apply list_elem_of_In].
Qed.

(** On a logger enabled for the level, with extra data that name no
    attribute of the record and can be encoded, and a healthy storage, an
    emission hands one record, carrying the message and the level, to every
    handler of the logger that takes the level, and persists one row, which
    carries the level, the message and the module, function and line of the
    caller. *)
Theorem emit_enabled (lvl : LogLevel) (self : Repository.StructuredLogger)
    (message : string) (extra : option pydict) (frame : Frame)
    (i : Repository.Instants) (lg : Logging) (t : Repository.Table) :
  isEnabledFor (Repository.sl_name self) (levelno lvl) lg = true ->
  check_extra (default [] extra) = Ok tt ->
  is_ok (to_json false (PDict (default [] extra))) = true ->
  exists r row,
    Repository.emit lvl self message extra (Some frame) i Repository.Healthy lg t
      = (callHandlers (Repository.sl_name self) r lg, t ++ [row], Ok tt)
    /\ r_msg r = message
    /\ r_levelno r = levelno lvl
    /\ (forall h, In h (lg_handlers (getLogger (Repository.sl_name self) lg)) ->
          h_level h <= levelno lvl ->
          In (h, r) (emitted (callHandlers (Repository.sl_name self) r lg)))
    /\ Repository.level row = lvl
    /\ Repository.message row = message
    /\ Repository.module row = f_name frame
    /\ Repository.function row = Some (f_function frame)
    /\ Repository.line_number row = Some (f_lineno frame).
Proof.
  intros Hen Hextra Hjson.
  unfold Repository.emit, Logger_log, makeRecord. rewrite Hen, Hextra.
  cbv beta iota delta [bind]. unfold Repository._log_to_db.
  destruct (create_healthy t
              {| Repository.c_level := lvl; Repository.c_message := message;
                 Repository.c_module := f_name frame;
                 Repository.c_function := Some (f_function frame);
                 Repository.c_line_number := Some (f_lineno frame);
                 Repository.c_extra_data := extra |}
              (Repository.at_timestamp i) (Repository.at_created i) Hjson)
    as (row & Hrow & _).
  rewrite Hrow. eexists _, row. split; [reflexivity|].
  split; [done|]. split; [done|].
  split; [intros h Hin Hle; by apply callHandlers_reaches|].
  revert Hrow. unfold Repository.create, dumps.
  cbv beta iota delta [Repository.c_extra_data Repository.c_level
    Repository.c_message Repository.c_module Repository.c_function
    Repository.c_line_number].
  destruct (dict_truthy extra).
  - destruct (to_json false _) as [j|]; [|discriminate].
    cbv beta iota delta [bind Repository.fault Repository.with_id].
    by intros [= _ <-].
  - cbv beta iota delta [bind Repository.fault Repository.with_id].
    by intros [= _ <-].
Qed.

Lemma emit_enabled_witness :
  exists lg' row,
    Repository.error svc "boom" (Some [("code", PInt 500)]) (Some app_frame)
      instants Repository.Healthy svc_at_warning []
    = (lg', [row], Ok tt)
    /\ Repository.message row = "boom".
Proof.
  destruct (emit_enabled ERROR svc "boom" (Some [("code", PInt 500)]) app_frame
              instants svc_at_warning []
              ltac:(vm_compute; reflexivity) eq_refl eq_refl)
    as (r & row & H & _ & _ & _ & _ & Hm & _).
  eexists _, row. unfold Repository.error. split; [exact H | exact Hm].
Defined.

(** ** [logger_router.py]: entries and their listing *)

Lemma Logger_log_checked name n msg extra exc fr now lg :
  check_extra extra = Ok tt ->
  (Logger_log name n msg extra exc fr now lg).2 = Ok tt.
Proof.
  intros H. unfold Logger_log, makeRecord. rewrite H.
  by destruct (isEnabledFor name n lg).
Qed.

Lemma router_log_returns self (l : LogLevel) message extra now lg :
  (Router.log self (level_value l) message extra now lg).2 = Ok tt.
Proof.
  unfold Router.log. rewrite logging_attr_level.
  apply Logger_log_checked. by destruct (dict_truthy extra).
Qed.

(** [create_log_entry] always returns: it keeps the entry, with the fields
    of the request, the given id and the current time, at the end of the
    entries, whatever the level of the logger; and when no entry had the id,
    [get_log_entry] on the id gives the entry back. *)
Theorem create_log_entry_appends (self : Router.LoggerService)
    (d : Router.LogEntryCreate) (entry_id : string) (now t_record : datetime)
    (lg : Logging) :
  exists lg' e,
    Router.create_log_entry self d entry_id now t_record lg
      = ({| Router.config := Router.config self;
            Router.logger := Router.logger self;
            Router.log_entries := Router.log_entries self ++ [e] |}, lg', Ok e)
    /\ Router.id e = entry_id
    /\ Router.timestamp e = now
    /\ Router.e_level e = Router.level d
    /\ Router.e_message e = Router.message d
    /\ Router.e_extra_data e = Router.extra_data d
    /\ Router.logger_name e = Router.app_name (Router.config self)
    /\ (Forall (fun x => Router.id x <> entry_id) (Router.log_entries self) ->
        Router.get_log_entry
          {| Router.config := Router.config self;
             Router.logger := Router.logger self;
             Router.log_entries := Router.log_entries self ++ [e] |} entry_id
        = Some e).
Proof.
  unfold Router.create_log_entry.
  pose proof (router_log_returns (Router.logger self) (Router.level d)
                (Router.message d) (Router.extra_data d) t_record lg) as Hlog.
  destruct (Router.log _ _ _ _ _ _) as [lg' r]. simpl in Hlog. subst r.
  eexists _, _. split; [reflexivity|]. simpl. repeat split.
  intros Hfresh. unfold Router.get_log_entry. simpl.
  induction Hfresh as [|x l Hx Hl IH]; simpl.
  - by rewrite String.eqb_refl.
  - apply String.eqb_neq in Hx. by rewrite Hx.
Qed.

Lemma LogLevel_eqb_eq (a b : LogLevel) : LogLevel_eqb a b = true <-> a = b.
Proof. by destruct a, b. Qed.

Lemma matching_passes (q : Router.LogQueryParams)
    (l : list Router.LogEntryResponse) (e : Router.LogEntryResponse) :
  In e (Router.matching q l) <-> In e l /\ passes q e.
Proof.
  unfold Router.matching, passes.
  destruct (Router.q_level q) as [lv|], (Router.start_time q) as [st|],
           (Router.end_time q) as [en|];
    rewrite ?filter_In, ?Z.leb_le, ?LogLevel_eqb_eq;
    (split;
     [ intros H; repeat split; try tauto; intros ? [= <-]; tauto
     | intros (Hin & Hl & Hs & He); repeat split; auto ]).
Qed.

Lemma In_take {A : Type} (n : nat) (l : list A) (x : A) :
  In x (take n l) -> In x l.
Proof.
  revert l. induction n as [|n IH]; intros [|y l]; simpl; try done.
  intros [H|H]; [by left | right; by apply IH].
Qed.

Lemma In_drop {A : Type} (n : nat) (l : list A) (x : A) :
  In x (drop n l) -> In x l.
Proof.
  revert l. induction n as [|n IH]; intros [|y l]; simpl; try done.
  intros H. right. by apply IH.
Qed.

Lemma py_slice_sub {A : Type} (a b : Z) (l : list A) (x : A) :
  In x (py_slice a b l) -> In x l.
Proof. unfold py_slice. intros H. eapply In_drop, In_take, H. Qed.

(** What [get_log_entries] returns are entries held that pass the three
    filters of the query (level equal, timestamp not before the start and
    not after the end); and with no offset and a limit that covers the
    entries held, every entry that passes is returned. *)
Theorem get_log_entries_filters (self : Router.LoggerService)
    (q : Router.LogQueryParams) (e : Router.LogEntryResponse) :
  (In e (Router.get_log_entries self q) ->
   In e (Router.log_entries self) /\ passes q e)
  /\ (Router.offset q = 0 ->
      Z.of_nat (length (Router.log_entries self)) <= Router.limit q ->
      In e (Router.log_entries self) -> passes q e ->
      In e (Router.get_log_entries self q)).
Proof.
  split.
  - intros H. apply py_slice_sub in H. by apply matching_passes.
  - intros Hoff Hlim Hin Hpass. unfold Router.get_log_entries.
    rewrite Hoff.
    assert (Hlen : (length (Router.matching q (Router.log_entries self))
                    <= length (Router.log_entries self))%nat).
    { unfold Router.matching.
      destruct (Router.q_level q), (Router.start_time q), (Router.end_time q);
        repeat (etransitivity; [apply filter_length_le|]); done. }
    rewrite (py_slice_window 0 (Router.limit q)) by lia.
    change (drop (Z.to_nat 0) ?l) with l. rewrite take_ge by lia.
    by apply matching_passes.
Qed.

(** ** [logger_router.py]: building a [StructuredLogger] *)

Lemma getLogger_set_logger_ne name name' l lg :
  name <> name' -> getLogger name' (set_logger name l lg) = getLogger name' lg.
Proof.
  intros Hne. unfold getLogger, set_logger. simpl.
  by rewrite lookup_insert_ne.
Qed.

(** [StructuredLogger(name, level, log_file)] of the router variant drops
    whatever handlers the logger had.  When it returns, the handlers are the
    console and, if a file is named, the file.  When the file cannot be
    opened it raises with the level set and the console as the only handler.
    When the level has no name in the logging module it raises and changes
    nothing.  No other logger and no trace is touched. *)
Theorem structured_logger_rebuilds (fs : string -> bool) (name level : string)
    (log_file : option string) (lg : Logging) :
  match Router.new_StructuredLogger fs name level log_file lg with
  | (lg', Ok l) =>
      Router.sl_name l = name
      /\ lg_handlers (getLogger name lg')
         = rebuilt_handlers (default EmptyString log_file)
      /\ logging_attr (upper level) = Ok (lg_level (getLogger name lg'))
      /\ emitted lg' = emitted lg
      /\ forall name', name <> name' -> getLogger name' lg' = getLogger name' lg
  | (lg', Raise (OSError path)) =>
      log_file = Some path /\ fs path = false
      /\ lg_handlers (getLogger name lg') = [console]
      /\ logging_attr (upper level) = Ok (lg_level (getLogger name lg'))
      /\ forall name', name <> name' -> getLogger name' lg' = getLogger name' lg
  | (lg', Raise _) =>
      lg' = lg /\ is_ok (logging_attr (upper level)) = false
  end.
Proof.
  unfold Router.new_StructuredLogger, rebuilt_handlers.
  destruct (logging_attr (upper level)) as [n|e] eqn:Hn.
  - assert (Hrest : forall h name',
              name <> name' ->
              getLogger name'
                (addHandler name h (clearHandlers name (setLevel name n lg)))
              = getLogger name' lg).
    { intros h name' Hne. unfold addHandler, clearHandlers, setLevel.
      by rewrite !getLogger_set_logger_ne. }
    destruct log_file as [path|]; simpl.
    + destruct (str_truthy path) eqn:Hp.
      * unfold FileHandler. destruct (fs path) eqn:Hfs.
        -- split; [done|]. split.
           { unfold addHandler, clearHandlers, setLevel.
             by rewrite !getLogger_set_logger. }
           split.
           { unfold addHandler, clearHandlers, setLevel.
             by rewrite !getLogger_set_logger. }
           split; [done|]. intros name' Hne.
           unfold addHandler at 1. rewrite getLogger_set_logger_ne by done.
           by apply Hrest.
        -- split; [done|]. split; [done|]. split.
           { unfold addHandler, clearHandlers, setLevel.
             by rewrite !getLogger_set_logger. }
           split.
           { unfold addHandler, clearHandlers, setLevel.
             by rewrite !getLogger_set_logger. }
           apply Hrest.
      * split; [done|]. split.
        { unfold addHandler, clearHandlers, setLevel.
          by rewrite !getLogger_set_logger. }
        split.
        { unfold addHandler, clearHandlers, setLevel.
          by rewrite !getLogger_set_logger. }
        split; [done|]. apply Hrest.
    + split; [done|]. split.
      { unfold addHandler, clearHandlers, setLevel.
        by rewrite !getLogger_set_logger. }
      split.
      { unfold addHandler, clearHandlers, setLevel.
        by rewrite !getLogger_set_logger. }
      split; [done|]. apply Hrest.
  - unfold logging_attr in Hn.
    repeat match type of Hn with
           | (if ?c then _ else _) = _ => destruct c; [discriminate|]
           end.
    by injection Hn as <-.
Qed.

(** ** [logger_service.py]: configuring a logger, once *)

Lemma setup_noop fs name config lg :
  lg_handlers (getLogger name lg) <> [] ->
  Service._setup_logger fs name config lg = (lg, Ok tt).
Proof.
  intros H. unfold Service._setup_logger.
  by destruct (lg_handlers (getLogger name lg)).
Qed.

Lemma setup_ok_handlers fs name config lg lg1 :
  Service._setup_logger fs name config lg = (lg1, Ok tt) ->
  lg_handlers (getLogger name lg1) <> [].
Proof.
  unfold Service._setup_logger.
  destruct (lg_handlers (getLogger name lg)) as [|h hs] eqn:Hh.
  - destruct (checkLevel _) as [n|]; [|discriminate].
    destruct (truthy _).
    + destruct (default PNone _); try discriminate.
      destruct (FileHandler _ _ _); [|discriminate].
      intros [= <-]. unfold setPropagate, addHandler, setLevel.
      rewrite !getLogger_set_logger. simpl.
      apply not_eq_sym, app_cons_not_nil.
    + intros [= <-]. unfold setPropagate, addHandler, setLevel.
      rewrite !getLogger_set_logger. simpl.
      apply not_eq_sym, app_cons_not_nil.
  - intros [= <-]. by rewrite Hh.
Qed.

Lemma setup_file_refused fs name config lg lg1 path :
  Service._setup_logger fs name config lg = (lg1, Raise (OSError path)) ->
  lg_handlers (getLogger name lg) = []
  /\ dict_get "file_path" config = Some (PStr path)
  /\ fs path = false
  /\ lg_handlers (getLogger name lg1) = [service_console]
  /\ lg_propagate (getLogger name lg1) = lg_propagate (getLogger name lg)
  /\ checkLevel (default (PInt (levelno INFO)) (dict_get "level" config))
     = Ok (lg_level (getLogger name lg1)).
Proof.
  unfold Service._setup_logger.
  destruct (lg_handlers (getLogger name lg)) as [|h hs] eqn:Hh; [|discriminate].
  destruct (checkLevel _) as [n|e] eqn:Hn.
  - destruct (dict_get "file_path" config) as [v|]; simpl; [|discriminate].
    destruct (truthy v); [|discriminate].
    destruct v; try discriminate.
    unfold FileHandler. destruct (fs s) eqn:Hfs; [discriminate|].
    intros [= <- <-]. unfold addHandler, setLevel.
    rewrite !getLogger_set_logger. simpl. by rewrite Hh.
  - intros [= <- ->]. revert Hn. unfold checkLevel.
    destruct (default _ _); try discriminate.
    by destruct (logging_attr _).
Qed.

(** Once [LoggerService(name, config)] has returned, every further
    construction for the name returns and leaves the logging module as it
    is, whatever its configuration holds and whether its file can be opened:
    the level and the file of a later configuration are not applied, though
    the object built carries that configuration. *)
Theorem service_setup_once (fs fs' : string -> bool) (name : string)
    (config config' : option pydict) (lg lg1 : Logging)
    (s : Service.LoggerService) :
  Service.new_LoggerService fs name config lg = (lg1, Ok s) ->
  Service.new_LoggerService fs' name config' lg1
  = (lg1, Ok {| Service.name := name; Service.config := default [] config' |}).
Proof.
  unfold Service.new_LoggerService.
  destruct (Service._setup_logger fs name _ lg) as [lg2 [[]|e]] eqn:H;
    [|discriminate].
  intros [= <- _]. apply setup_ok_handlers in H.
  by rewrite setup_noop.
Qed.

Lemma service_setup_once_witness :
  exists lg1,
    Service.new_LoggerService (fun _ => true) "app" None empty_logging
      = (lg1, Ok {| Service.name := "app"; Service.config := [] |})
    /\ Service.new_LoggerService no_such_file "app" (Some warning_to_file) lg1
       = (lg1, Ok {| Service.name := "app"; Service.config := warning_to_file |}).
Proof.
  eexists. split; [reflexivity|].
  apply (service_setup_once (fun _ => true) no_such_file "app" None
           (Some warning_to_file) empty_logging _
           {| Service.name := "app"; Service.config := [] |}).
  reflexivity.
Defined.

(** When [create_logger] raises because the log file cannot be opened, no
    instance is registered, and the logger is left with the console as its
    only handler.  The next [create_logger] for the name therefore returns
    a new instance without touching the logging module: the file of its
    configuration is never opened and its level never set. *)
Theorem failed_file_open_sticks (fs fs' : string -> bool) (name : string)
    (config config' : option pydict) (st st1 : Service.Factory)
    (path : string) :
  Service.create_logger fs name config st = (st1, Raise (OSError path)) ->
  Service.get_logger name st1 = None
  /\ fs path = false
  /\ lg_handlers (getLogger name (Service.logging st1)) = [service_console]
  /\ Service.create_logger fs' name config' st1
     = ({| Service._instances :=
             <[name := length (Service.heap st1)]> (Service._instances st1);
           Service.heap :=
             Service.heap st1 ++
             [{| Service.name := name; Service.config := default [] config' |}];
           Service.logging := Service.logging st1 |},
        Ok (length (Service.heap st1))).
Proof.
  unfold Service.create_logger at 1.
  destruct (Service._instances st !! name) as [r|] eqn:Hreg; [discriminate|].
  unfold Service.new_LoggerService.
  destruct (Service._setup_logger fs name _ (Service.logging st))
    as [lg1 [[]|e]] eqn:H; [discriminate|].
  simpl. intros [= <- ->].
  apply setup_file_refused in H as (_ & _ & Hfs & Hh & _).
  unfold Service.get_logger, Service.create_logger,
    Service.new_LoggerService. simpl.
  rewrite Hreg, setup_noop by (by rewrite Hh). simpl.
  repeat split; done.
Qed.

Lemma failed_file_open_sticks_witness :
  exists st1,
    Service.create_logger no_such_file "app" (Some warning_to_file) no_instances
      = (st1, Raise (OSError "app.log"))
    /\ is_ok (Service.create_logger (fun _ => true) "app" (Some warning_to_file)
                st1).2 = true
    /\ lg_handlers
         (getLogger "app"
            (Service.logging
               (Service.create_logger (fun _ => true) "app"
                  (Some warning_to_file) st1).1))
       = [service_console].
Proof.
  eexists. split; [reflexivity|].
  destruct (failed_file_open_sticks no_such_file (fun _ => true) "app"
              (Some warning_to_file) (Some warning_to_file) no_instances _
              "app.log" eq_refl) as (_ & _ & Hh & Hc).
  rewrite Hc. split; [reflexivity | exact Hh].
Defined.

(** ** [logger_service.py]: emission *)

Lemma bind_kwargs_ok (fn : string) (params : list string) (kwargs : pydict) :
  names_none params kwargs = true -> Service.bind_kwargs fn params kwargs = Ok tt.
Proof.
  unfold Service.bind_kwargs, names_none.
  induction kwargs as [|kv kwargs IH]; [done|]. simpl.
  destruct (mem_str kv.1 params); [done|]. exact IH.
Qed.







Lemma taking_all (n : Z) (hs : list Handler) :
  Forall (fun h => h_level h <= n) hs -> taking n hs = hs.
Proof.
  unfold taking. induction 1 as [|h hs Hh _ IH]; [done|].
  rewrite filter_cons_True by done. by rewrite IH.
Qed.

Ltac configured :=
  intros [= <-]; unfold setPropagate, addHandler, setLevel;
  rewrite !getLogger_set_logger; simpl;
  repeat match goal with H : lg_handlers _ = [] |- _ => rewrite H end; done.

(** A logger without handlers that [LoggerService] configures from a
    configuration with a positive integer level gets the console and, if
    the configuration names a file, the file, as its handlers, and nothing
    is handed out.  Then an emission below the level does nothing, and an
    emission at or above it hands one record, which carries the message and
    the keyword arguments that are not [None], to the console and to the
    file, and to no other handler, the root's included. *)
Theorem service_level_gate (fs : string -> bool) (name : string)
    (config : pydict) (level n : Z) (message : string) (kwargs : pydict)
    (now : datetime) (lg lg1 : Logging) (s : Service.LoggerService) :
  lg_handlers (getLogger name lg) = [] ->
  dict_get "level" config = Some (PInt level) ->
  0 < level ->
  Service.new_LoggerService fs name (Some config) lg = (lg1, Ok s) ->
  names_none ["self"; "level"; "message"] kwargs = true ->
  lg_handlers (getLogger name lg1) = service_handlers config
  /\ emitted lg1 = emitted lg
  /\ (n < level ->
      Service._log_with_extra s n message kwargs now lg1 = (lg1, Ok tt))
  /\ (level <= n ->
      Service._log_with_extra s n message kwargs now lg1
      = ({| loggers := loggers lg1;
            emitted :=
              emitted lg1
              ++ map (fun h => (h, service_record name n message kwargs now))
                   (service_handlers config) |}, Ok tt)).
Proof.
  intros Hh Hlevel Hpos. unfold Service.new_LoggerService.
  destruct (Service._setup_logger fs name _ lg) as [lg2 [[]|e]] eqn:H;
    [|discriminate].
  intros [= <- <-] Hnames. simpl in H.
  assert (Hstate : lg_level (getLogger name lg2) = level
                   /\ lg_propagate (getLogger name lg2) = false
                   /\ lg_handlers (getLogger name lg2) = service_handlers config
                   /\ emitted lg2 = emitted lg).
  { revert H. unfold Service._setup_logger, service_handlers.
    rewrite Hh, Hlevel. simpl.
    destruct (default PNone (dict_get "file_path" config)) as
      [|b|z|p|l|l|d|o|e]; simpl.
    - configured.
    - destruct b; [discriminate | configured].
    - destruct (negb (z =? 0)); [discriminate | configured].
    - destruct (str_truthy p); [|configured].
      unfold FileHandler. destruct (fs p); [configured | discriminate].
    - destruct l; [configured | discriminate].
    - destruct l; [configured | discriminate].
    - destruct d; [configured | discriminate].
    - discriminate.
    - discriminate. }
  destruct Hstate as (Hl & Hp & Hhs & Hem).
  assert (Heff : getEffectiveLevel name lg2 = level).
  { unfold getEffectiveLevel. rewrite Hl.
    destruct (Z.eqb_spec level NOTSET) as [E|E]; [unfold NOTSET in E; lia|done]. }
  split; [exact Hhs|]. split; [exact Hem|].
  unfold Service._log_with_extra. rewrite (bind_kwargs_ok _ _ _ Hnames).
  unfold Logger_log, isEnabledFor. simpl.
  rewrite Heff. split; intros Hn.
  - destruct (Z.leb_spec level n); [lia | done].
  - destruct (Z.leb_spec level n); [|lia].
    unfold makeRecord. simpl. f_equal. unfold callHandlers.
    rewrite Hp, Hhs. simpl. f_equal. f_equal.
    unfold service_handlers.
    destruct (default PNone (dict_get "file_path" config)) as
      [|b|z|p|l|l|d|o|e]; simpl;
      try (unfold taking; rewrite filter_cons_True, filter_nil;
           [done | simpl; unfold NOTSET; lia]).
    destruct (str_truthy p); simpl; unfold taking.
    + rewrite !filter_cons_True, filter_nil by (simpl; unfold NOTSET; lia).
      done.
    + rewrite filter_cons_True, filter_nil; [done|].
      simpl. unfold NOTSET. lia.
Qed.

Lemma service_level_gate_witness :
  exists lg1 s,
    Service.new_LoggerService (fun _ => true) "app" (Some warning_to_file)
      empty_logging = (lg1, Ok s)
    /\ emitted (Service._log_with_extra s 40 "boom" [("user", PInt 7)] noon
                  lg1).1
       = [(service_console,
           service_record "app" 40 "boom" [("user", PInt 7)] noon);
          (service_file "app.log",
           service_record "app" 40 "boom" [("user", PInt 7)] noon)]
    /\ Service.info s "quiet" [] noon lg1 = (lg1, Ok tt).
Proof.
  eexists _, _. split; [reflexivity|].
  destruct (service_level_gate (fun _ => true) "app" warning_to_file 30 40
              "boom" [("user", PInt 7)] noon empty_logging _ _
              eq_refl eq_refl ltac:(lia) eq_refl eq_refl)
    as (_ & _ & _ & Hhigh).
  destruct (service_level_gate (fun _ => true) "app" warning_to_file 30 20
              "quiet" [] noon empty_logging _ _
              eq_refl eq_refl ltac:(lia) eq_refl eq_refl)
    as (_ & _ & Hlow & _).
  split.
  - rewrite Hhigh by lia. reflexivity.
  - apply Hlow. lia.
Defined.

(** ** [models/logger.py]: what a draft satisfies *)

Lemma rstrip_idem (s : string) : rstrip (rstrip s) = rstrip s.
Proof.
  induction s as [|c s IH]; [done|]. simpl.
  destruct (rstrip s) as [|d r] eqn:E.
  - destruct (py_isspace c) eqn:Hc; [done|]. simpl. by rewrite Hc.
  - change (match rstrip (String d r) with
            | EmptyString =>
                if py_isspace c then EmptyString else String c EmptyString
            | String a b => String c (String a b)
            end = String c (String d r)).
    by rewrite IH.
Qed.

Lemma lstrip_no_lead (s : string) : no_lead (lstrip s).
Proof.
  induction s as [|c s IH]; [done|]. simpl.
  by destruct (py_isspace c) eqn:Hc.
Qed.

Lemma lstrip_fix (s : string) : no_lead s -> lstrip s = s.
Proof. destruct s as [|c s]; [done|]. simpl. by intros ->. Qed.

Lemma rstrip_no_lead (s : string) : no_lead s -> no_lead (rstrip s).
Proof.
  destruct s as [|c s]; [done|]. simpl. intros Hc.
  destruct (rstrip s); [by rewrite Hc | done].
Qed.

Lemma strip_idem (s : string) : strip (strip s) = strip s.
Proof.
  unfold strip.
  rewrite (lstrip_fix (rstrip (lstrip s)))
    by apply rstrip_no_lead, lstrip_no_lead.
  apply rstrip_idem.
Qed.

(** A draft that [models/logger.py] has constructed passes the validation
    again, and comes out as it is: its message is not empty, is trimmed and
    has at most 1000 characters, its module and function have at most 100,
    its line number is at least 1. *)
Theorem draft_revalidates (lvl : LogLevel) (msg : string)
    (md fn : option string) (ln : option Z) (ex : option pydict)
    (e : Models.LogEntryCreate) :
  Models.new_LogEntryCreate lvl msg md fn ln ex = Ok e ->
  Models.new_LogEntryCreate (Models.level e) (Models.message e)
    (Models.module e) (Models.function e) (Models.line_number e)
    (Models.extra_data e) = Ok e
  /\ Models.message e <> EmptyString
  /\ strip (Models.message e) = Models.message e
  /\ Models.module e = md /\ Models.function e = fn
  /\ Models.line_number e = ln
  /\ Models.level e = lvl /\ Models.extra_data e = ex.
Proof.
  unfold Models.new_LogEntryCreate.
  destruct (Models.message_field msg) as [m|] eqn:Hm; [|discriminate].
  pose proof (message_field_ok _ _ Hm) as [-> Hlen].
  assert (Hne : strip msg <> EmptyString).
  { intros E. assert (is_ok (Models.message_field msg) = false) as Hf
      by (apply message_field_fails; by right).
    by rewrite Hm in Hf. }
  simpl.
  unfold Models.check_opt_max_length, Models.check_max_length,
    Models.check_opt_ge.
  destruct md as [m|]; [destruct (Z.leb_spec (len m) 100); [|discriminate]|];
    (destruct fn as [f|];
     [destruct (Z.leb_spec (len f) 100); [|discriminate]|]);
    (destruct ln as [n|];
     [destruct (Z.leb_spec 1 n); [|discriminate]|]);
    simpl; intros [= <-]; simpl.
  all: assert (Hagain : Models.message_field (strip msg) = Ok (strip msg))
    by (unfold Models.message_field, Models.check_max_length,
          Models.validate_message;
        destruct (Z.leb_spec (len (strip msg)) 1000); [|lia];
        simpl; rewrite strip_idem;
        destruct (strip msg); [done | reflexivity]).
  all: rewrite Hagain; simpl.
  all: repeat match goal with
         | |- context [len ?x <=? 100] =>
             destruct (Z.leb_spec (len x) 100); [|lia]
         | |- context [1 <=? ?x] => destruct (Z.leb_spec 1 x); [|lia]
         end.
  all: simpl; repeat split; try done; apply strip_idem.
Qed.

Lemma draft_revalidates_witness :
  exists e,
    Models.new_LogEntryCreate INFO "  up  " (Some "app") None (Some 7) None
    = Ok e
    /\ Models.message e = "up"
    /\ Models.new_LogEntryCreate INFO "up" (Some "app") None (Some 7) None
       = Ok e.
Proof.
  eexists. split; [reflexivity|]. split; [reflexivity|].
  exact (proj1 (draft_revalidates INFO "  up  " (Some "app") None (Some 7)
                  None _ eq_refl)).
Defined.

(** [models/logger.py] accepts a draft exactly when the message has at most
    1000 characters and is not empty once trimmed, the module and the
    function, when given, have at most 100 characters, and the line number,
    when given, is at least 1. *)
Theorem draft_accepted_iff (lvl : LogLevel) (msg : string)
    (md fn : option string) (ln : option Z) (ex : option pydict) :
  is_ok (Models.new_LogEntryCreate lvl msg md fn ln ex) = true
  <-> acceptable msg md fn ln.
Proof.
  unfold acceptable, Models.new_LogEntryCreate.
  pose proof (message_field_fails msg) as Hf.
  destruct (Models.message_field msg) as [m|e] eqn:Hm; simpl in *.
  - assert (Hmsg : len msg <= 1000 /\ strip msg <> EmptyString).
    { split.
      - destruct (Z.le_gt_cases (len msg) 1000) as [H|H]; [done|].
        assert (false = false) as _ by done.
        destruct Hf as [_ Hf]. discriminate Hf. left. lia.
      - intros E. destruct Hf as [_ Hf]. discriminate Hf. by right. }
    unfold Models.check_opt_max_length, Models.check_max_length,
      Models.check_opt_ge.
    destruct md as [m'|]; [destruct (Z.leb_spec (len m') 100)|];
      (destruct fn as [f|]; [destruct (Z.leb_spec (len f) 100)|]);
      (destruct ln as [n|]; [destruct (Z.leb_spec 1 n)|]);
      simpl; split; try done;
      try (intros _; repeat split; try tauto; by intros ? [= <-]).
    all: intros (_ & _ & Hmd & Hfn & Hln);
      try (specialize (Hmd _ eq_refl)); try (specialize (Hfn _ eq_refl));
      try (specialize (Hln _ eq_refl)); lia.
  - split; [done|]. intros (Hlen & Hne & _).
    destruct Hf as [Hf _]. destruct (Hf eq_refl) as [?|?]; [lia | done].
Qed.

(** ** [models/logger.py]: the formatter and the [Logger] *)

(** In what [StructuredFormatter] renders, the seven fixed keys carry the
    values of the record, whatever the caller's mapping holds, and the
    mapping is found, whole, under "extra_data". *)
Theorem models_fixed_keys (record : LogRecord) :
  let d := Models.log_data record in
  dict_get "timestamp" d = Some (PStr (isoformat (r_created record)))
  /\ dict_get "level" d = Some (PStr (r_levelname record))
  /\ dict_get "message" d = Some (PStr (r_msg record))
  /\ dict_get "module" d = Some (PStr (r_module record))
  /\ dict_get "function" d = Some (PStr (r_funcName record))
  /\ dict_get "line_number" d = Some (PInt (r_lineno record))
  /\ dict_get "pathname" d = Some (PStr (r_pathname record))
  /\ dict_get "extra_data" d = dict_get "extra_data" (r_extra record)
  /\ (length d <= 8)%nat.
Proof.
  unfold Models.log_data.
  destruct (dict_get "extra_data" (r_extra record)); simpl;
    repeat split; lia.
Qed.

Lemma remove_each (name : string) (hs : list Handler) :
  forall lg,
    lg_handlers (getLogger name lg) = hs ->
    let lg' := fold_left (fun lg h => removeHandler name h lg) hs lg in
    lg_handlers (getLogger name lg') = []
    /\ lg_level (getLogger name lg') = lg_level (getLogger name lg)
    /\ lg_propagate (getLogger name lg') = lg_propagate (getLogger name lg)
    /\ emitted lg' = emitted lg
    /\ forall name', name <> name' -> getLogger name' lg' = getLogger name' lg.
Proof.
  induction hs as [|h hs IH]; intros lg Hh; simpl.
  - by rewrite Hh.
  - destruct (IH (removeHandler name h lg)) as (H1 & H2 & H3 & H4 & H5).
    { unfold removeHandler. rewrite getLogger_set_logger. simpl.
      rewrite Hh. simpl. by rewrite decide_True. }
    split; [exact H1|]. split.
    { rewrite H2. unfold removeHandler. by rewrite getLogger_set_logger. }
    split.
    { rewrite H3. unfold removeHandler. by rewrite getLogger_set_logger. }
    split; [by rewrite H4|].
    intros name' Hne. rewrite H5 by done. unfold removeHandler.
    by rewrite getLogger_set_logger_ne.
Qed.

(** [Logger(name, level)] of [models/logger.py] leaves the logger with the
    level asked for, no propagation and one handler, the console with the
    structured formatter, whatever handlers it had; it touches no other
    logger and hands nothing out. *)
Theorem models_logger_fresh (name : string) (level : LogLevel) (lg : Logging) :
  let lg' := (Models.new_Logger name level lg).2 in
  lg_handlers (getLogger name lg') = [models_console]
  /\ lg_level (getLogger name lg') = levelno level
  /\ lg_propagate (getLogger name lg') = false
  /\ emitted lg' = emitted lg
  /\ forall name', name <> name' -> getLogger name' lg' = getLogger name' lg.
Proof.
  unfold Models.new_Logger. cbv zeta. cbn [snd].
  pose proof (remove_each name _ (setLevel name (levelno level) lg) eq_refl)
    as H. cbv zeta in H.
  set (lg0 := fold_left _ _ _) in *.
  destruct H as (H1 & H2 & H3 & H4 & H5).
  unfold setPropagate, addHandler.
  rewrite !getLogger_set_logger. cbn [lg_handlers lg_level lg_propagate].
  split; [by rewrite H1|]. split.
  { rewrite H2. unfold setLevel. by rewrite getLogger_set_logger. }
  split; [done|]. split.
  { unfold set_logger at 1 2. cbn [emitted]. by rewrite H4. }
  intros name' Hne. rewrite !getLogger_set_logger_ne by done.
  rewrite H5 by done. unfold setLevel. by rewrite getLogger_set_logger_ne.
Qed.

Lemma models_logger_state (name : string) (level : LogLevel) (lg : Logging) :
  let lg' := (Models.new_Logger name level lg).2 in
  lg_handlers (getLogger name lg') = [models_console]
  /\ lg_level (getLogger name lg') = levelno level
  /\ lg_propagate (getLogger name lg') = false.
Proof.
  unfold Models.new_Logger. cbv zeta. cbn [snd].
  pose proof (remove_each name _ (setLevel name (levelno level) lg) eq_refl)
    as H. cbv zeta in H.
  set (lg0 := fold_left _ _ _) in *.
  destruct H as (H1 & H2 & H3 & H4 & H5).
  unfold setPropagate, addHandler.
  rewrite !getLogger_set_logger. cbn [lg_handlers lg_level lg_propagate].
  split; [by rewrite H1|]. split; [|done].
  rewrite H2. unfold setLevel. by rewrite getLogger_set_logger.
Qed.

(** On a logger that [Logger(name, L)] of [models/logger.py] has built, an
    emission below L changes nothing, and an emission at L or above hands
    one record to the console and to nothing else; the record carries the
    message, and the caller's mapping when it is not empty. *)
Theorem models_level_gate (name : string) (level0 level : LogLevel)
    (message : string) (extra_data : option pydict) (now : datetime)
    (lg : Logging) :
  let self := (Models.new_Logger name level0 lg).1 in
  let lg1 := (Models.new_Logger name level0 lg).2 in
  if levelno level <? levelno level0
  then Models._log self level message extra_data now lg1 = (lg1, Ok tt)
  else exists r,
         Models._log self level message extra_data now lg1
         = ({| loggers := loggers lg1;
               emitted := emitted lg1 ++ [(models_console, r)] |}, Ok tt)
         /\ r_msg r = message
         /\ r_levelno r = levelno level
         /\ dict_get "extra_data" (Models.log_data r)
            = if dict_truthy extra_data
              then Some (PDict (default [] extra_data)) else None.
Proof.
  intros self lg1.
  destruct (models_logger_state name level0 lg) as (Hh & Hl & Hp).
  fold lg1 in Hh, Hl, Hp.
  assert (Heff : getEffectiveLevel name lg1 = levelno level0).
  { unfold getEffectiveLevel. rewrite Hl. by destruct level0. }
  unfold Models._log, Logger_log, isEnabledFor.
  change (Models.logger_name self) with name. rewrite Heff.
  destruct (Z.ltb_spec (levelno level) (levelno level0)) as [Hlt|Hge].
  - destruct (Z.leb_spec (levelno level0) (levelno level)); [lia | done].
  - destruct (Z.leb_spec (levelno level0) (levelno level)); [|lia].
    assert (Hcall : forall r, r_levelno r = levelno level ->
              callHandlers name r lg1
              = {| loggers := loggers lg1;
                   emitted := emitted lg1 ++ [(models_console, r)] |}).
    { intros r Hr. unfold callHandlers. rewrite Hh, Hp. simpl.
      unfold taking. rewrite filter_cons_True; [done|].
      simpl. rewrite Hr. unfold NOTSET. by destruct level. }
    destruct (dict_truthy extra_data); simpl.
    + eexists. split; [by rewrite Hcall|]. done.
    + eexists. split; [by rewrite Hcall|]. done.
Qed.

(** ** [test_logger.py]: the [Logger] under test *)

(** [set_level] with the name of a level sets the level of the object, of
    the logger and of every handler of the logger; the handlers keep their
    number, their streams and their formatters. *)
Theorem tests_set_level (self : Tests.Logger) (level : string) (n : Z)
    (lg : Logging) :
  logging_attr (upper level) = Ok n ->
  exists self' lg',
    Tests.set_level self level lg = (self', lg', Ok tt)
    /\ Tests.level self' = n
    /\ Tests.name self' = Tests.name self
    /\ Tests.format_type self' = Tests.format_type self
    /\ lg_level (getLogger (Tests.name self) lg') = n
    /\ Forall (fun h => h_level h = n)
         (lg_handlers (getLogger (Tests.name self) lg'))
    /\ map h_stream (lg_handlers (getLogger (Tests.name self) lg'))
       = map h_stream (lg_handlers (getLogger (Tests.name self) lg))
    /\ map h_formatter (lg_handlers (getLogger (Tests.name self) lg'))
       = map h_formatter (lg_handlers (getLogger (Tests.name self) lg)).
Proof.
  intros Hn. unfold Tests.set_level. rewrite Hn.
  eexists _, _. split; [reflexivity|].
  unfold setHandlerLevels, setLevel. rewrite !getLogger_set_logger.
  cbn [lg_handlers lg_level Tests.level Tests.name Tests.format_type].
  repeat split.
  - apply Forall_forall. intros h Hin.
    apply list_elem_of_In, in_map_iff in Hin as (h' & <- & _). done.
  - by rewrite map_map.
  - by rewrite map_map.
Qed.

Lemma tests_set_level_witness :
  exists self' lg',
    Tests.set_level fixture "error"
      (Tests.add_console_handler fixture empty_logging)
    = (self', lg', Ok tt)
    /\ Tests.level self' = 40
    /\ map h_level (lg_handlers (getLogger "test_logger" lg')) = [40].
Proof.
  destruct (tests_set_level fixture "error" 40
              (Tests.add_console_handler fixture empty_logging) eq_refl)
    as (self' & lg' & H & Hl & _).
  exists self', lg'. split; [exact H|]. split; [exact Hl|].
  vm_compute in H. by injection H as <- <-.
Defined.




(** [_log] builds its message before it asks the logger anything: it raises
    exactly when there are keyword arguments and they have no encoding, at
    any level of the logger, and then hands nothing out. *)
Theorem tests_log_raises_iff (self : Tests.Logger) (n : Z) (message : string)
    (kwargs : pydict) (now : datetime) (lg : Logging) :
  (is_ok (Tests._log self n message kwargs now lg).2 = false
   <-> kwargs <> [] /\ is_ok (to_json false (PDict kwargs)) = false)
  /\ (is_ok (Tests._log self n message kwargs now lg).2 = false ->
      (Tests._log self n message kwargs now lg).1 = lg).
Proof.
  unfold Tests._log, Tests.structured_message, dumps.
  destruct kwargs as [|kv kwargs].
  - rewrite Logger_log_checked by done. split; [|done].
    split; [done | by intros [? _]].
  - destruct (to_json false (PDict (kv :: kwargs))) as [j|e]; simpl.
    + rewrite Logger_log_checked by done. split; [|done].
      split; [done | by intros [_ ?]].
    + split; [|done]. split; [done|]. by intros _.
Qed.

(** ** [logger_router.py]: what a reconfiguration leaves alone *)

Lemma new_StructuredLogger_frame fs name level log_file lg :
  emitted (Router.new_StructuredLogger fs name level log_file lg).1 = emitted lg
  /\ forall name', name <> name' ->
       getLogger name' (Router.new_StructuredLogger fs name level log_file lg).1
       = getLogger name' lg.
Proof.
  unfold Router.new_StructuredLogger.
  destruct (logging_attr (upper level)) as [n|e]; [|done].
  cbv zeta. unfold FileHandler.
  destruct (str_truthy _); [destruct (fs _)|]; cbn [fst];
    (split; [done|]); intros name' Hne;
    unfold addHandler, clearHandlers, setLevel;
    by rewrite !getLogger_set_logger_ne.
Qed.

(** Whatever its outcome, [update_logger_config] keeps the entries held and
    the name of the application, hands nothing out and touches no other
    logger; and when no log file is requested, the handlers of the logger
    stay as they are. *)
Theorem update_logger_config_frame (fs : string -> bool)
    (self : Router.LoggerService) (upd : Router.LoggerConfigUpdate)
    (lg : Logging) :
  Router.sl_name (Router.logger self) = Router.app_name (Router.config self) ->
  let self' := (Router.update_logger_config fs self upd lg).1.1 in
  let lg' := (Router.update_logger_config fs self upd lg).1.2 in
  Router.log_entries self' = Router.log_entries self
  /\ Router.app_name (Router.config self') = Router.app_name (Router.config self)
  /\ emitted lg' = emitted lg
  /\ (forall name', Router.app_name (Router.config self) <> name' ->
        getLogger name' lg' = getLogger name' lg)
  /\ (Router.u_log_file upd = None ->
      lg_handlers (getLogger (Router.app_name (Router.config self)) lg')
      = lg_handlers (getLogger (Router.app_name (Router.config self)) lg)).
Proof.
  intros Hname self' lg'. subst self' lg'.
  unfold Router.update_logger_config.
  destruct upd as [[l|] [f|]]; cbn [Router.u_log_level Router.u_log_file].
  - cbn [Router.config Router.app_name Router.log_level Router.log_file
         Router.logger Router.log_entries].
    pose proof (new_StructuredLogger_frame fs
                  (Router.app_name (Router.config self)) (level_value l)
                  (Some f)
                  (setLevel (Router.sl_name (Router.logger self)) (levelno l) lg))
      as [He Hrest].
    destruct (Router.new_StructuredLogger fs _ _ _ _) as [lg1 [sl|e]];
      cbn [fst snd Router.log_entries Router.config Router.app_name] in *.
    all: split; [done|]; split; [done|]; split; [done|]; split; [|done].
    all: intros name' Hne; rewrite Hrest by done; unfold setLevel;
      rewrite getLogger_set_logger_ne; [done | by rewrite Hname].
  - cbn [fst snd Router.log_entries Router.config Router.app_name].
    rewrite <- Hname. unfold setLevel.
    split; [done|]. split; [done|]. split; [done|]. split.
    + intros name' Hne. by rewrite getLogger_set_logger_ne.
    + intros _. by rewrite getLogger_set_logger.
  - cbn [Router.config Router.app_name Router.log_level Router.log_file
         Router.logger Router.log_entries].
    pose proof (new_StructuredLogger_frame fs
                  (Router.app_name (Router.config self))
                  (Router.log_level (Router.config self)) (Some f) lg)
      as [He Hrest].
    destruct (Router.new_StructuredLogger fs _ _ _ _) as [lg1 [sl|e]];
      cbn [fst snd Router.log_entries Router.config Router.app_name] in *.
    all: split; [done|]; split; [done|]; split; [done|]; split; done.
  - cbn [fst snd]. repeat split; done.
Qed.

Lemma update_logger_config_frame_witness :
  Router.log_entries
    (Router.update_logger_config no_such_file router_service bad_update
       router_logging).1.1
  = Router.log_entries router_service.
Proof.
  exact (proj1 (update_logger_config_frame no_such_file router_service
                  bad_update router_logging eq_refl)).
Defined.
